(** * pmg: the dependency bump workflow of [bin/bump.js]

    A shallow embedding of [bin/bump.js] (and of the earlier draft of the same
    script that the repository also carries).  The script is a straight line
    of awaited calls into nodegit, the file system, Octokit and the console;
    it is embedded as a program over an explicit signature of those calls, so
    that the order in which the outside world is touched can be stated and
    proved for every behaviour of the outside world.

    Embedded: [internals.*] and [exports.bump], with the JavaScript they rely
    on (string replacement, property reads and writes on the parsed manifest,
    template literals, [JSON.stringify]).  Not embedded: the command line
    wrapper at the end of the file, which passes [process.argv] to [bump],
    prints a thrown error and exits with status 1. *)

From Stdlib Require Import String Ascii List Bool Arith NArith Lia.
Import ListNotations.
Local Open Scope list_scope.
Local Open Scope string_scope.

Set Warnings "-register-all".

(* ===================================================================== *)
(** * JavaScript strings

    A JavaScript string is a sequence of UTF-16 code units; here it is the
    sequence of bytes of its UTF-8 encoding.  Every character the script
    looks for ([@ / ^ ~ .]) is ASCII, and an ASCII byte never occurs inside a
    multi-byte UTF-8 sequence, so searching and replacing them acts alike on
    both representations. *)

Module JsString.

(** [s.slice(n)] for [0 <= n]. *)
Fixpoint slice (n : nat) (s : string) : string :=
  match n, s with
  | O, _ => s
  | S _, EmptyString => EmptyString
  | S n', String _ s' => slice n' s'
  end.

(** [s.replace(pattern, replacement)] with a _string_ pattern: only the
    first occurrence of [pattern] is replaced.  (The replacements used by
    the script, [''] and ['-'], contain no [$], so no substitution pattern
    is expanded.) *)
Fixpoint replace (s pattern replacement : string) {struct s} : string :=
  if prefix pattern s
  then replacement ++ slice (String.length pattern) s
  else match s with
       | EmptyString => EmptyString
       | String c s' => String c (replace s' pattern replacement)
       end.

(** [s.replace(/[...]/g, replacement)]: a global regular expression that is
    a single character class.  Every character of the class is replaced. *)
Fixpoint replace_class_g (class : list ascii) (replacement s : string) : string :=
  match s with
  | EmptyString => EmptyString
  | String c s' =>
      if existsb (Ascii.eqb c) class
      then replacement ++ replace_class_g class replacement s'
      else String c (replace_class_g class replacement s')
  end.

(** [s.split(sep)] for a separator of one character. *)
Fixpoint split (sep : ascii) (s : string) : list string :=
  match s with
  | EmptyString => [EmptyString]
  | String c s' =>
      if Ascii.eqb c sep then EmptyString :: split sep s'
      else match split sep s' with
           | [] => [String c EmptyString]
           | piece :: pieces => String c piece :: pieces
           end
  end.

(** Helpers of the statements (not of the script). *)
Fixpoint filter (keep : ascii -> bool) (s : string) : string :=
  match s with
  | EmptyString => EmptyString
  | String c s' => if keep c then String c (filter keep s') else filter keep s'
  end.

Fixpoint map (f : ascii -> ascii) (s : string) : string :=
  match s with
  | EmptyString => EmptyString
  | String c s' => String (f c) (map f s')
  end.

Fixpoint count (c : ascii) (s : string) : nat :=
  match s with
  | EmptyString => 0
  | String d s' => (if Ascii.eqb d c then 1 else 0) + count c s'
  end.

Fixpoint mem (c : ascii) (s : string) : bool :=
  match s with
  | EmptyString => false
  | String d s' => Ascii.eqb d c || mem c s'
  end.

(** The first occurrence of the character [c] is removed. *)
Fixpoint remove_first (c : ascii) (s : string) : string :=
  match s with
  | EmptyString => EmptyString
  | String d s' => if Ascii.eqb d c then s' else String d (remove_first c s')
  end.

(** The first occurrence of the character [c] becomes [d]. *)
Fixpoint subst_first (c d : ascii) (s : string) : string :=
  match s with
  | EmptyString => EmptyString
  | String e s' => if Ascii.eqb e c then String d s' else String e (subst_first c d s')
  end.

End JsString.

(* ===================================================================== *)
(** * Branch and commit naming ([bump], lines 132-135) *)

(** [afterVersion.replace(/[\^\~]/g, '')] *)
Definition safeVersion (afterVersion : string) : string :=
  JsString.replace_class_g ["^"%char; "~"%char] "" afterVersion.

(** [packageName.replace('@', '').replace('/', '-')] *)
Definition safePackageName (packageName : string) : string :=
  JsString.replace (JsString.replace packageName "@" "") "/" "-".

(** [`bump-${safePackageName}-v${safeVersion}`] *)
Definition branchName (packageName afterVersion : string) : string :=
  "bump-" ++ safePackageName packageName ++ "-v" ++ safeVersion afterVersion.

(** [`Bump ${safePackageName} to v${safeVersion}`] *)
Definition commitMessage (packageName afterVersion : string) : string :=
  "Bump " ++ safePackageName packageName ++ " to v" ++ safeVersion afterVersion.

(** The naming rule as the specification words it: the characters [^] and [~]
    are stripped from the version, the characters [@] and [/] are stripped
    from the package name. *)
Module SpecNaming.

Definition strip (chars : list ascii) (s : string) : string :=
  JsString.filter (fun c => negb (existsb (Ascii.eqb c) chars)) s.

Definition sanitizedVersion (afterVersion : string) : string :=
  strip ["^"%char; "~"%char] afterVersion.

Definition sanitizedPackageName (packageName : string) : string :=
  strip ["@"%char; "/"%char] packageName.

Definition branchName (packageName afterVersion : string) : string :=
  "bump-" ++ sanitizedPackageName packageName ++ "-v" ++ sanitizedVersion afterVersion.

Definition commitMessage (packageName afterVersion : string) : string :=
  "Bump " ++ sanitizedPackageName packageName ++ " to v" ++ sanitizedVersion afterVersion.

End SpecNaming.


(* ===================================================================== *)
(** * The parsed manifest: JSON values as JavaScript sees them

    [JSON.parse] builds a tree of fresh objects without sharing, so the
    in-place assignment [pkg.dependencies[packageName] = afterVersion] is the
    functional update of that tree.  An object keeps its own properties in
    order (that order is what [JSON.stringify] prints), hence the association
    list.  A number is carried by the text [Number::toString] gives it (the
    infinities, which [JSON.parse] yields for literals beyond the range of a
    double and [JSON.stringify] prints as [null], are left out). *)

Inductive json : Type :=
| JNull
| JBool (b : bool)
| JNum (text : string)
| JStr (s : string)
| JArr (items : list json)
| JObj (fields : list (string * json)).

(** What a property read can evaluate to: [undefined], a value of the parsed
    tree, or a member inherited from [Object.prototype] (a built-in function,
    or [Object.prototype] itself for [__proto__]). *)
Inductive value : Type :=
| VUndefined
| VJson (j : json)
| VFunction (name : string)
| VObjectPrototype.

Module JsObject.

(** Own property lookup. *)
Fixpoint own (key : string) (fields : list (string * json)) : option json :=
  match fields with
  | [] => None
  | (k, v) :: rest => if String.eqb k key then Some v else own key rest
  end.

(** The members every plain object inherits from [Object.prototype]. *)
Definition inherited (key : string) : value :=
  if String.eqb key "constructor" then VFunction "Object"
  else if String.eqb key "__proto__" then VObjectPrototype
  else if existsb (String.eqb key)
            ["toString"; "toLocaleString"; "valueOf"; "hasOwnProperty";
             "isPrototypeOf"; "propertyIsEnumerable"; "__defineGetter__";
             "__defineSetter__"; "__lookupGetter__"; "__lookupSetter__"]
  then VFunction key
  else VUndefined.

(** [obj[key]] on a plain object. *)
Definition get (fields : list (string * json)) (key : string) : value :=
  match own key fields with
  | Some v => VJson v
  | None => inherited key
  end.

(** An existing own property is overwritten where it stands. *)
Fixpoint overwrite (key : string) (v : json) (fields : list (string * json))
  : list (string * json) :=
  match fields with
  | [] => []
  | (k, old) :: rest =>
      if String.eqb k key then (k, v) :: rest else (k, old) :: overwrite key v rest
  end.

Definition is_digit (c : ascii) : bool :=
  (48 <=? N_of_ascii c)%N && (N_of_ascii c <=? 57)%N.

Fixpoint digits (s : string) (acc : N) : option N :=
  match s with
  | EmptyString => Some acc
  | String c s' =>
      if is_digit c then digits s' (10 * acc + (N_of_ascii c - 48))%N else None
  end.

(** A property key that is an array index: the canonical decimal text of an
    integer below 2^32 - 1.  Such keys are kept first, in ascending order. *)
Definition array_index (key : string) : option N :=
  match key with
  | EmptyString => None
  | String c rest =>
      if Ascii.eqb c "0" && negb (String.eqb rest "") then None
      else match digits key 0%N with
           | Some n => if (n <? 4294967295)%N then Some n else None
           | None => None
           end
  end.

(** A new own property: after the existing ones, except that an array index
    goes before every key that is not an index and every larger index. *)
Fixpoint create (key : string) (v : json) (fields : list (string * json))
  : list (string * json) :=
  match fields with
  | [] => [(key, v)]
  | (k, old) :: rest =>
      match array_index key, array_index k with
      | Some i, Some j => if (i <? j)%N then (key, v) :: fields
                          else (k, old) :: create key v rest
      | Some _, None => (key, v) :: fields
      | None, _ => (k, old) :: create key v rest
      end
  end.

(** [obj[key] = v] on a plain object.  Assigning a primitive to an inherited
    [__proto__] runs the setter of [Object.prototype], which ignores it. *)
Definition set (fields : list (string * json)) (key : string) (v : json)
  : list (string * json) :=
  match own key fields with
  | Some _ => overwrite key v fields
  | None => if String.eqb key "__proto__" then fields else create key v fields
  end.

End JsObject.

(** [ToString] of a value, as a template literal applies it; [None] is the
    [TypeError] of an object that cannot be converted to a primitive (an own
    [toString] property that came from JSON is not callable, and the
    inherited [valueOf] returns the object itself). *)
Fixpoint json_ToString (j : json) : option string :=
  match j with
  | JNull => Some "null"
  | JBool true => Some "true"
  | JBool false => Some "false"
  | JNum text => Some text
  | JStr s => Some s
  | JArr items =>
      (* Array.prototype.toString is join(","); null elements print empty. *)
      (fix join (l : list json) : option string :=
         match l with
         | [] => Some ""
         | x :: rest =>
             match (match x with JNull => Some "" | _ => json_ToString x end), rest with
             | Some sx, [] => Some sx
             | Some sx, _ :: _ =>
                 match join rest with
                 | Some sr => Some (sx ++ "," ++ sr)
                 | None => None
                 end
             | None, _ => None
             end
         end) items
  | JObj fields =>
      match JsObject.own "toString" fields with
      | Some _ => None
      | None => Some "[object Object]"
      end
  end.

Definition ToString (v : value) : option string :=
  match v with
  | VUndefined => Some "undefined"
  | VJson j => json_ToString j
  | VFunction name => Some ("function " ++ name ++ "() { [native code] }")
  | VObjectPrototype => Some "[object Object]"
  end.

(** [v === s] for a string [s]. *)
Definition strict_equals_string (v : value) (s : string) : bool :=
  match v with
  | VJson (JStr s') => String.eqb s' s
  | _ => false
  end.

(* ===================================================================== *)
(** * [JSON.stringify(value, null, space)]

    The serialisation of a parsed tree (ECMAScript, SerializeJSONProperty):
    members in property order, and with a non-empty gap one member per line,
    indented by one more gap per nesting level. *)

Module JSON.

Definition hex_digit (n : N) : ascii :=
  if (n <? 10)%N then ascii_of_N (48 + n) else ascii_of_N (87 + n).

Definition backslash : ascii := ascii_of_N 92.
Definition double_quote : ascii := ascii_of_N 34.

Definition quote_char (c : ascii) : string :=
  let n := N_of_ascii c in
  if (n =? 34)%N then String backslash (String double_quote "")
  else if (n =? 92)%N then String backslash (String backslash "")
  else if (n =? 8)%N then String backslash "b"
  else if (n =? 9)%N then String backslash "t"
  else if (n =? 10)%N then String backslash "n"
  else if (n =? 12)%N then String backslash "f"
  else if (n =? 13)%N then String backslash "r"
  else if (n <? 32)%N
       then String backslash "u00"
            ++ String (hex_digit (n / 16)) (String (hex_digit (n mod 16)) "")
  else String c "".

Fixpoint quote_body (s : string) : string :=
  match s with
  | EmptyString => EmptyString
  | String c s' => quote_char c ++ quote_body s'
  end.

(** QuoteJSONString *)
Definition quote (s : string) : string :=
  String double_quote (quote_body s ++ String double_quote "").

Fixpoint join (separator : string) (parts : list string) : string :=
  match parts with
  | [] => ""
  | [x] => x
  | x :: rest => x ++ separator ++ join separator rest
  end.

Definition newline : string := String (ascii_of_N 10) "".

(** The brackets around the serialised members of an object or an array. *)
Definition enclose (opening closing gap stepback indent : string)
                   (partial : list string) : string :=
  match partial with
  | [] => opening ++ closing
  | _ :: _ =>
      if String.eqb gap ""
      then opening ++ join "," partial ++ closing
      else opening ++ newline ++ indent
           ++ join ("," ++ newline ++ indent) partial
           ++ newline ++ stepback ++ closing
  end.

Fixpoint serialize (gap stepback : string) (j : json) {struct j} : string :=
  let indent := stepback ++ gap in
  match j with
  | JNull => "null"
  | JBool true => "true"
  | JBool false => "false"
  | JNum text => text
  | JStr s => quote s
  | JArr items =>
      enclose "[" "]" gap stepback indent
        ((fix elements (l : list json) : list string :=
            match l with
            | [] => []
            | x :: rest => serialize gap indent x :: elements rest
            end) items)
  | JObj fields =>
      enclose "{" "}" gap stepback indent
        ((fix members (l : list (string * json)) : list string :=
            match l with
            | [] => []
            | (k, x) :: rest =>
                (quote k ++ ":" ++ (if String.eqb gap "" then "" else " ")
                 ++ serialize gap indent x) :: members rest
            end) fields)
  end.

Fixpoint spaces (n : nat) : string :=
  match n with
  | O => ""
  | S n' => String " " (spaces n')
  end.

(** [JSON.stringify(value, null, space)] with a numeric [space]. *)
Definition stringify (j : json) (space : nat) : string :=
  serialize (spaces (Nat.min 10 space)) "" j.

End JSON.

(* ===================================================================== *)
(** * The outside world: nodegit, [fs], Octokit and the console

    Every call the script makes into a library that touches the repository,
    the disk, the network or the terminal is a constructor of [call]; what it
    returns is [response].  Objects handed out by the libraries (a repository,
    a remote, an index, ...) are opaque references. *)

Definition Repository := nat.
Definition Remote := nat.
Definition Index := nat.
Definition Commit := nat.
Definition Oid := nat.
Definition Signature := nat.
Definition Reference := nat.
Definition OctokitClient := nat.

(** [process.env.GITHUB_USERNAME] and [process.env.GITHUB_PASSWORD], read
    when the module is loaded; [None] is [undefined]. *)
Record Environment : Type := {
  GITHUB_USERNAME : option string;
  GITHUB_PASSWORD : option string
}.

(** [internals.gitOptions]: the credentials callback answers with
    [Git.Cred.userpassPlaintextNew(GITHUB_USERNAME, GITHUB_PASSWORD)]. *)
Record GitOptions : Type := {
  credentials_username : option string;
  credentials_password : option string
}.

(** The argument of [octokit.authenticate]. *)
Record Authentication : Type := {
  auth_type : string;
  auth_username : option string;
  auth_password : option string
}.

(** The argument of [octokit.pullRequests.create]; [None] is [undefined]. *)
Record PullRequestParams : Type := {
  pr_owner : option string;
  pr_repo : option string;
  pr_head : string;
  pr_base : string;
  pr_title : string
}.

(** The part of the answer of [octokit.pullRequests.create] that is read:
    [result.data.url]. *)
Record PullRequestData : Type := { url : string }.
Record PullRequestResult : Type := { data : PullRequestData }.

Inductive call : Type :=
| Git_Repository_open (path : string)
| Repository_getStatus (repo : Repository)
| Repository_checkoutBranch (repo : Repository) (branch : string)
| Repository_getRemote (repo : Repository) (name : string)
| Remote_url (remote : Remote)
| Repository_fetchAll (repo : Repository) (options : GitOptions)
| Repository_mergeBranches (repo : Repository) (to from : string)
| Remote_push (remote : Remote) (refSpecs : list string) (options : GitOptions)
| Repository_getHeadCommit (repo : Repository)
| Repository_createBranch (repo : Repository) (name : string) (commit : Commit)
                          (force : bool)
| Repository_defaultSignature (repo : Repository)
| Repository_refreshIndex (repo : Repository)
| Index_addByPath (index : Index) (path : string)
| Index_write (index : Index)
| Index_writeTree (index : Index)
| Repository_createCommit (repo : Repository) (updateRef : string)
                          (author committer : Signature) (message : string)
                          (tree : Oid) (parents : list Commit)
| Fs_readFileSync (path encoding : string)
| Fs_writeFileSync (path contents : string)
| Octokit (baseUrl : string)
| Octokit_authenticate (client : OctokitClient) (options : Authentication)
| Octokit_pullRequests_create (client : OctokitClient) (params : PullRequestParams)
| console_log (line : string).

Definition response (c : call) : Type :=
  match c with
  | Git_Repository_open _ => Repository
  | Repository_getStatus _ => list string
  | Repository_checkoutBranch _ _ => unit
  | Repository_getRemote _ _ => Remote
  | Remote_url _ => string
  | Repository_fetchAll _ _ => unit
  | Repository_mergeBranches _ _ _ => Oid
  | Remote_push _ _ _ => unit
  | Repository_getHeadCommit _ => Commit
  | Repository_createBranch _ _ _ _ => Reference
  | Repository_defaultSignature _ => Signature
  | Repository_refreshIndex _ => Index
  | Index_addByPath _ _ => unit
  | Index_write _ => unit
  | Index_writeTree _ => Oid
  | Repository_createCommit _ _ _ _ _ _ _ => Oid
  | Fs_readFileSync _ _ => string
  | Fs_writeFileSync _ _ => unit
  | Octokit _ => OctokitClient
  | Octokit_authenticate _ _ => unit
  | Octokit_pullRequests_create _ _ => PullRequestResult
  | console_log _ => unit
  end.

(** What can be thrown: the error of a failed [Hoek.assert] with its message,
    the [TypeError] and [SyntaxError] of the language, and whatever a library
    call rejects with. *)
Inductive error : Type :=
| AssertionError (message : string)
| TypeError
| SyntaxError
| LibraryError (detail : string).

(** An [async] function body: it returns, throws, or awaits a call and goes
    on with its answer. *)
Inductive prog (A : Type) : Type :=
| Ret (a : A)
| Throw (e : error)
| Call (c : call) (k : response c -> prog A).

Arguments Ret {A} a.
Arguments Throw {A} e.
Arguments Call {A} c k.

Fixpoint bind {A B : Type} (m : prog A) (f : A -> prog B) : prog B :=
  match m with
  | Ret a => f a
  | Throw e => Throw e
  | Call c k => Call c (fun r => bind (k r) f)
  end.

Definition perform (c : call) : prog (response c) := Call c Ret.

(** A pure expression that may throw a [TypeError]. *)
Definition or_TypeError {A : Type} (o : option A) : prog A :=
  match o with
  | Some a => Ret a
  | None => Throw TypeError
  end.

Declare Scope prog_scope.
Delimit Scope prog_scope with prog.
Notation "x <- m ;; k" := (bind m (fun x => k))
  (at level 61, m at next level, right associativity) : prog_scope.
Notation "m ;; k" := (bind m (fun _ => k))
  (at level 61, right associativity) : prog_scope.
Local Open Scope prog_scope.

(** ** Runs

    The outside world is a state [W] and a function that answers each call,
    with a value or with an error, and moves to the next state.  A run
    records every call that was made together with its answer. *)

Definition collaborator (W : Type) : Type :=
  forall c : call, W -> (error + response c) * W.

Inductive event : Type :=
| Event (c : call) (answer : error + response c).

Definition called (ev : event) : call :=
  match ev with Event c _ => c end.

Definition succeeded (ev : event) : bool :=
  match ev with Event _ (inr _) => true | Event _ (inl _) => false end.

Inductive outcome (A : Type) : Type :=
| Returned (a : A)
| Thrown (e : error).

Arguments Returned {A} a.
Arguments Thrown {A} e.

Record run (A W : Type) : Type := Run {
  result : outcome A;
  trace : list event;
  world : W
}.

Arguments Run {A W} result trace world.
Arguments result {A W} r.
Arguments trace {A W} r.
Arguments world {A W} r.

(** The run that starts with the event [ev] and goes on as [rest]. *)
Definition following {A W : Type} (ev : event) (rest : run A W) : run A W :=
  match rest with
  | Run result trace world => Run result (ev :: trace) world
  end.

Fixpoint exec {W A : Type} (lib : collaborator W) (p : prog A) (w : W) : run A W :=
  match p with
  | Ret a => Run (Returned a) [] w
  | Throw e => Run (Thrown e) [] w
  | Call c k =>
      match lib c w with
      | (inl e, w') => Run (Thrown e) [Event c (inl e)] w'
      | (inr r, w') => following (Event c (inr r)) (exec lib (k r) w')
      end
  end.

(* ===================================================================== *)
(** * The pure library functions the script calls

    [Path.resolve], [Url.parse] and [JSON.parse] compute without touching the
    world; they are parameters of the development, and so is what the engine
    does when a property is read from, or assigned on, a value that is not a
    plain object (an array, or a primitive through its wrapper).  Nothing is
    assumed about any of them. *)

(** The fields of the object [Url.parse] returns that the script reads;
    [None] is [null]. *)
Record UrlObject : Type := {
  hostname : option string;
  pathname : option string
}.

Record Runtime : Type := {
  Path_resolve : string -> string -> string;
  Url_parse : string -> UrlObject;
  (** [None]: a [SyntaxError] *)
  JSON_parse : string -> option json;
  exotic_get : json -> string -> value;
  (** the receiver after the assignment; [None]: a [TypeError] *)
  exotic_set : json -> string -> json -> option json
}.

(** [{ host, owner, name }]: [host] is a string or [null], [owner] and [name]
    are strings or [undefined] (array destructuring past the end). *)
Record RepoInfo : Type := {
  host : option string;
  owner : option string;
  name : option string
}.

Definition null_or (s : option string) : string :=
  match s with Some s => s | None => "null" end.

Definition undefined_or (s : option string) : string :=
  match s with Some s => s | None => "undefined" end.

(** Truthiness of a string or [undefined]: the empty string is falsy too. *)
Definition truthy (s : option string) : bool :=
  match s with
  | Some s => negb (String.eqb s "")
  | None => false
  end.

(** [Hoek.assert(condition, message)] *)
Definition Hoek_assert (condition : bool) (message : string) : prog unit :=
  if condition then Ret tt else Throw (AssertionError message).

(** [v === s] for [v] a string or [null]. *)
Definition strict_equals (v : option string) (s : string) : bool :=
  match v with
  | Some s' => String.eqb s' s
  | None => false
  end.

(** [internals.getBaseUrl] *)
Definition getBaseUrl (hostName : option string) : string :=
  if strict_equals hostName "github.com"
  then "https://api.github.com"
  else "https://" ++ null_or hostName ++ "/api/v3".

Section Script.

Variable node : Runtime.
Variable env : Environment.

(** [pkg.dependencies[packageName]]; [None] is the [TypeError] of reading a
    property of [undefined] or [null].  No built-in prototype has a member
    called [dependencies], so [pkg.dependencies] is [undefined] unless [pkg]
    is an object with that own property. *)
Definition dependencies_get (pkg : json) (packageName : string) : option value :=
  match pkg with
  | JObj fields =>
      match JsObject.own "dependencies" fields with
      | None => None
      | Some JNull => None
      | Some (JObj dependencies) => Some (JsObject.get dependencies packageName)
      | Some exotic => Some (exotic_get node exotic packageName)
      end
  | _ => None
  end.

(** [pkg.dependencies[packageName] = afterVersion]: the tree [pkg] refers to
    after the assignment; [None] is a [TypeError] (the file is in strict
    mode). *)
Definition dependencies_set (pkg : json) (packageName afterVersion : string)
  : option json :=
  match pkg with
  | JObj fields =>
      match JsObject.own "dependencies" fields with
      | None => None
      | Some JNull => None
      | Some (JObj dependencies) =>
          Some (JObj (JsObject.overwrite "dependencies"
                        (JObj (JsObject.set dependencies packageName (JStr afterVersion)))
                        fields))
      | Some exotic =>
          match exotic_set node exotic packageName (JStr afterVersion) with
          | Some exotic' => Some (JObj (JsObject.overwrite "dependencies" exotic' fields))
          | None => None
          end
      end
  | _ => None
  end.

Definition gitOptions : GitOptions :=
  {| credentials_username := GITHUB_USERNAME env;
     credentials_password := GITHUB_PASSWORD env |}.

Definition repoHasUncommittedChanges (inputPath : string) : prog bool :=
  repo <- perform (Git_Repository_open inputPath) ;;
  statuses <- perform (Repository_getStatus repo) ;;
  Ret (Nat.ltb 0 (List.length statuses)).

Definition checkoutBranch (inputPath branchName : string) : prog unit :=
  repo <- perform (Git_Repository_open inputPath) ;;
  perform (Repository_checkoutBranch repo branchName).

Definition lookupRemote (inputPath remoteName : string) : prog Remote :=
  repo <- perform (Git_Repository_open inputPath) ;;
  perform (Repository_getRemote repo remoteName).

Definition getRepoInfo (inputPath : string) : prog RepoInfo :=
  remote <- lookupRemote inputPath "origin" ;;
  url <- perform (Remote_url remote) ;;
  let parsed := Url_parse node url in
  let host := hostname parsed in
  path <- or_TypeError (pathname parsed) ;;
  let parts := JsString.split "/" (JsString.replace (JsString.slice 1 path) ".git" "") in
  Ret {| host := host; owner := nth_error parts 0; name := nth_error parts 1 |}.

Definition pull (inputPath : string) : prog Oid :=
  repo <- perform (Git_Repository_open inputPath) ;;
  perform (Repository_fetchAll repo gitOptions) ;;
  perform (Repository_mergeBranches repo "master" "origin/master").

Definition push (inputPath branchName : string) : prog unit :=
  remote <- lookupRemote inputPath "origin" ;;
  perform (Remote_push remote
             ["refs/heads/" ++ branchName ++ ":refs/heads/" ++ branchName]
             gitOptions).

Definition createBranch (inputPath branchName : string) : prog Reference :=
  repo <- perform (Git_Repository_open inputPath) ;;
  commit <- perform (Repository_getHeadCommit repo) ;;
  perform (Repository_createBranch repo branchName commit false).

(** [for (const path of paths) { await index.addByPath(path); }] *)
Fixpoint addPaths (index : Index) (paths : list string) : prog unit :=
  match paths with
  | [] => Ret tt
  | path :: rest => perform (Index_addByPath index path) ;; addPaths index rest
  end.

Definition commitPaths (inputPath : string) (paths : list string) (message : string)
  : prog Oid :=
  repo <- perform (Git_Repository_open inputPath) ;;
  signature <- perform (Repository_defaultSignature repo) ;;
  index <- perform (Repository_refreshIndex repo) ;;
  addPaths index paths ;;
  perform (Index_write index) ;;
  oid <- perform (Index_writeTree index) ;;
  head <- perform (Repository_getHeadCommit repo) ;;
  perform (Repository_createCommit repo "HEAD" signature signature message oid [head]).

Definition createPR (repoInfo : RepoInfo) (branchName commitMessage : string)
  : prog string :=
  octokit <- perform (Octokit (getBaseUrl (host repoInfo))) ;;
  perform (Octokit_authenticate octokit
             {| auth_type := "basic";
                auth_username := GITHUB_USERNAME env;
                auth_password := GITHUB_PASSWORD env |}) ;;
  result <- perform (Octokit_pullRequests_create octokit
                       {| pr_owner := owner repoInfo;
                          pr_repo := name repoInfo;
                          pr_head := branchName;
                          pr_base := "master";
                          pr_title := "[Technical] " ++ commitMessage |}) ;;
  Ret (url (data result)).

(** [exports.bump] of [bin/bump.js].  The function has no [return]
    statement: the promise it gives resolves to [undefined]. *)
Definition bump (inputPath packageName beforeVersion afterVersion : string)
  : prog value :=
  Hoek_assert (truthy (GITHUB_USERNAME env)) "GITHUB_USERNAME required" ;;
  Hoek_assert (truthy (GITHUB_PASSWORD env)) "GITHUB_PASSWORD required" ;;

  let packagePath := Path_resolve node inputPath "package.json" in
  repoInfo <- getRepoInfo inputPath ;;
  let safeVersion := safeVersion afterVersion in
  let safePackageName := safePackageName packageName in
  let branchName := "bump-" ++ safePackageName ++ "-v" ++ safeVersion in
  let commitMessage := "Bump " ++ safePackageName ++ " to v" ++ safeVersion in

  (* Fail if there are changes that need stashing. *)
  dirty <- repoHasUncommittedChanges inputPath ;;
  Hoek_assert (negb dirty) ("The repo (" ++ inputPath ++ ") has uncommitted changes.") ;;

  (* git checkout master *)
  checkoutBranch inputPath "master" ;;

  (* git pull *)
  pull inputPath ;;

  (* Fail if the current version doesn't match the before version. *)
  text <- perform (Fs_readFileSync packagePath "utf8") ;;
  pkg <- match JSON_parse node text with
         | Some pkg => Ret pkg
         | None => Throw SyntaxError
         end ;;
  currentVersion <- or_TypeError (dependencies_get pkg packageName) ;;
  shown <- or_TypeError (ToString currentVersion) ;;
  Hoek_assert (strict_equals_string currentVersion beforeVersion)
              (shown ++ " must equal " ++ beforeVersion) ;;

  (* git checkout -b ${branchName} *)
  createBranch inputPath branchName ;;
  checkoutBranch inputPath branchName ;;

  (* Change the file. *)
  pkg' <- or_TypeError (dependencies_set pkg packageName afterVersion) ;;
  perform (Fs_writeFileSync packagePath (JSON.stringify pkg' 2 ++ JSON.newline)) ;;

  (* git add package.json
     git commit -m "${commitMessage}" *)
  commitPaths inputPath ["package.json"] commitMessage ;;

  (* git push -u origin ${branchName} *)
  push inputPath branchName ;;

  perform (console_log ("Pushed " ++ branchName ++ " to "
                        ++ undefined_or (owner repoInfo) ++ "/"
                        ++ undefined_or (name repoInfo))) ;;

  (* Make the PR. *)
  url <- createPR repoInfo branchName commitMessage ;;

  perform (console_log url) ;;
  Ret VUndefined.

End Script.

(* ===================================================================== *)
(** * The earlier draft of the script

    The repository also carries a draft of [bump.js] that stops after the
    push.  Its [internals] are the same functions, word for word; only
    [exports.bump] differs: the remote is not inspected, and no pull request
    is made. *)

Module Draft.

Section Script.

Variable node : Runtime.
Variable env : Environment.

(** [exports.bump] of the draft. *)
Definition bump (inputPath packageName beforeVersion afterVersion : string)
  : prog value :=
  Hoek_assert (truthy (GITHUB_USERNAME env)) "GITHUB_USERNAME required" ;;
  Hoek_assert (truthy (GITHUB_PASSWORD env)) "GITHUB_PASSWORD required" ;;

  let packagePath := Path_resolve node inputPath "package.json" in

  let safeVersion := safeVersion afterVersion in
  let safePackageName := safePackageName packageName in

  (* fail if there are changes that need stashing *)
  dirty <- repoHasUncommittedChanges inputPath ;;
  Hoek_assert (negb dirty) ("The repo (" ++ inputPath ++ ") has uncommitted changes.") ;;

  (* git checkout master *)
  checkoutBranch inputPath "master" ;;

  (* git pull *)
  pull env inputPath ;;

  (* fail if the current version doesn't match the before version *)
  text <- perform (Fs_readFileSync packagePath "utf8") ;;
  pkg <- match JSON_parse node text with
         | Some pkg => Ret pkg
         | None => Throw SyntaxError
         end ;;
  currentVersion <- or_TypeError (dependencies_get node pkg packageName) ;;
  shown <- or_TypeError (ToString currentVersion) ;;
  Hoek_assert (strict_equals_string currentVersion beforeVersion)
              (shown ++ " must equal " ++ beforeVersion) ;;

  (* git checkout -b ${branchName} *)
  let branchName := "bump-" ++ safePackageName ++ "-v" ++ safeVersion in
  createBranch inputPath branchName ;;
  checkoutBranch inputPath branchName ;;

  (* change the file *)
  pkg' <- or_TypeError (dependencies_set node pkg packageName afterVersion) ;;
  perform (Fs_writeFileSync packagePath (JSON.stringify pkg' 2 ++ JSON.newline)) ;;

  (* add and commit the change *)
  let commitMessage := "Bump " ++ safePackageName ++ " to v" ++ safeVersion in
  commitPaths inputPath ["package.json"] commitMessage ;;

  (* push the branch *)
  push env inputPath branchName ;;

  perform (console_log ("Pushed " ++ branchName)) ;;
  Ret VUndefined.

End Script.

End Draft.

(* ===================================================================== *)
(** * What a run did

    The vocabulary of the statements: which calls check out, create a branch,
    commit, push, write a file or ask for a pull request, and what a trace
    says about them. *)

Definition is_checkout (c : call) : bool :=
  match c with Repository_checkoutBranch _ _ => true | _ => false end.

Definition is_create_branch (c : call) : bool :=
  match c with Repository_createBranch _ _ _ _ => true | _ => false end.

Definition is_commit (c : call) : bool :=
  match c with Repository_createCommit _ _ _ _ _ _ _ => true | _ => false end.

Definition is_push (c : call) : bool :=
  match c with Remote_push _ _ _ => true | _ => false end.

Definition is_file_write (c : call) : bool :=
  match c with Fs_writeFileSync _ _ => true | _ => false end.

Definition is_pull_request (c : call) : bool :=
  match c with Octokit_pullRequests_create _ _ => true | _ => false end.

(** The calls that change the repository: its checked out branch, its refs,
    its index or its objects, here or on the remote. *)
Definition mutates_git (c : call) : bool :=
  match c with
  | Repository_checkoutBranch _ _
  | Repository_fetchAll _ _
  | Repository_mergeBranches _ _ _
  | Remote_push _ _ _
  | Repository_createBranch _ _ _ _
  | Index_addByPath _ _
  | Index_write _
  | Index_writeTree _
  | Repository_createCommit _ _ _ _ _ _ _ => true
  | _ => false
  end.

(** The calls that only look at the repository. *)
Definition inspects_git (c : call) : bool :=
  match c with
  | Git_Repository_open _
  | Repository_getStatus _
  | Repository_getRemote _ _
  | Remote_url _ => true
  | _ => false
  end.

(** The three calls of the push step, [internals.push]. *)
Definition in_push_step (c : call) : bool :=
  match c with
  | Git_Repository_open _
  | Repository_getRemote _ _
  | Remote_push _ _ _ => true
  | _ => false
  end.

(** No call of the kind was made. *)
Definition never (kind : call -> bool) (t : list event) : bool :=
  forallb (fun ev => negb (kind (called ev))) t.

(** Every call that was made is of the kind. *)
Definition only (kind : call -> bool) (t : list event) : bool :=
  forallb (fun ev => kind (called ev)) t.

(** A call of the kind was made and answered without an error. *)
Definition did (kind : call -> bool) (t : list event) : bool :=
  existsb (fun ev => kind (called ev) && succeeded ev) t.

(** The status query was answered with "nothing changed". *)
Definition reported_clean (t : list event) : bool :=
  existsb (fun ev =>
             match ev with
             | Event c answer =>
                 match c return error + response c -> bool with
                 | Repository_getStatus _ => fun answer =>
                     match answer with
                     | inr [] => true
                     | _ => false
                     end
                 | _ => fun _ => false
                 end answer
             end) t.

(** The changed paths the status query reported, when it was asked. *)
Fixpoint status_seen (t : list event) : option (list string) :=
  match t with
  | [] => None
  | Event c answer :: rest =>
      match c return error + response c -> option (list string) with
      | Repository_getStatus _ => fun answer =>
          match answer with
          | inr statuses => Some statuses
          | inl _ => status_seen rest
          end
      | _ => fun _ => status_seen rest
      end answer
  end.

(** The text [Fs.readFileSync] returned, when a file was read. *)
Fixpoint manifest_read (t : list event) : option string :=
  match t with
  | [] => None
  | Event c answer :: rest =>
      match c return error + response c -> option string with
      | Fs_readFileSync _ _ => fun answer =>
          match answer with
          | inr text => Some text
          | inl _ => manifest_read rest
          end
      | _ => fun _ => manifest_read rest
      end answer
  end.

(** Every [Fs.writeFileSync] that was called: path and contents. *)
Fixpoint writes (t : list event) : list (string * string) :=
  match t with
  | [] => []
  | Event c _ :: rest =>
      match c with
      | Fs_writeFileSync path contents => (path, contents) :: writes rest
      | _ => writes rest
      end
  end.

(** Every pull request that was asked for. *)
Fixpoint requested (t : list event) : list PullRequestParams :=
  match t with
  | [] => []
  | Event c _ :: rest =>
      match c with
      | Octokit_pullRequests_create _ params => params :: requested rest
      | _ => requested rest
      end
  end.

(** The URL of the pull request the hosting service created, when it did. *)
Fixpoint created (t : list event) : option string :=
  match t with
  | [] => None
  | Event c answer :: rest =>
      match c return error + response c -> option string with
      | Octokit_pullRequests_create _ _ => fun answer =>
          match answer with
          | inr answered => Some (url (data answered))
          | inl _ => created rest
          end
      | _ => fun _ => created rest
      end answer
  end.

(** Every line that went to standard output. *)
Fixpoint printed (t : list event) : list string :=
  match t with
  | [] => []
  | Event c _ :: rest =>
      match c with
      | console_log line => line :: printed rest
      | _ => printed rest
      end
  end.

(** The branches that were created, the branches that were checked out, the
    messages of the commits that were made and the refspecs that were pushed,
    in the order of the run (calls that were answered with an error do not
    count). *)
Fixpoint branches_created (t : list event) : list string :=
  match t with
  | [] => []
  | Event c answer :: rest =>
      match c, answer with
      | Repository_createBranch _ name _ _, inr _ => name :: branches_created rest
      | _, _ => branches_created rest
      end
  end.

Fixpoint checked_out (t : list event) : list string :=
  match t with
  | [] => []
  | Event c answer :: rest =>
      match c, answer with
      | Repository_checkoutBranch _ branch, inr _ => branch :: checked_out rest
      | _, _ => checked_out rest
      end
  end.

Fixpoint committed (t : list event) : list string :=
  match t with
  | [] => []
  | Event c answer :: rest =>
      match c, answer with
      | Repository_createCommit _ _ _ _ message _ _, inr _ => message :: committed rest
      | _, _ => committed rest
      end
  end.

Fixpoint pushed (t : list event) : list (list string) :=
  match t with
  | [] => []
  | Event c answer :: rest =>
      match c, answer with
      | Remote_push _ refSpecs _, inr _ => refSpecs :: pushed rest
      | _, _ => pushed rest
      end
  end.

(** The last event of a run. *)
Definition final_event (t : list event) : option event :=
  List.last (List.map Some t) None.

(** The error a call was answered with. *)
Definition failure (ev : event) : option error :=
  match ev with
  | Event _ (inl e) => Some e
  | Event _ (inr _) => None
  end.

(** The run ended with a failed call of the kind. *)
Definition ended_by_failed (kind : call -> bool) (t : list event) : bool :=
  match final_event t with
  | Some ev => kind (called ev) && negb (succeeded ev)
  | None => false
  end.

(** [packageName] is absent from the manifest's [dependencies]: the manifest
    has no [dependencies] at all, or its [dependencies] is an object without
    an entry of that name.  No other field is looked at. *)
Definition lacks_dependency (pkg : json) (packageName : string) : bool :=
  match pkg with
  | JObj fields =>
      match JsObject.own "dependencies" fields with
      | None => true
      | Some (JObj dependencies) =>
          match JsObject.own packageName dependencies with
          | None => true
          | Some _ => false
          end
      | Some _ => false
      end
  | _ => false
  end.

(* ===================================================================== *)
(** * An in-memory repository, disk and hosting service

    One concrete outside world, used to run the script on examples: a working
    copy with its branches and commits, the files on disk, the remote
    [origin], and the pull requests of the hosting service. *)

Module Memory.

Record World : Type := {
  status : list string;
  files : list (string * string);
  origin : option string;
  branches : list string;
  HEAD : string;
  staged : list string;
  commits : list (string * string);
  rejects_push : bool;
  pushed : list string;
  pull_requests : list PullRequestParams;
  stdout : list string
}.

Definition with_files (f : list (string * string)) (w : World) : World :=
  {| status := status w; files := f; origin := origin w; branches := branches w;
     HEAD := HEAD w; staged := staged w; commits := commits w;
     rejects_push := rejects_push w; pushed := pushed w;
     pull_requests := pull_requests w; stdout := stdout w |}.

Definition with_branches (b : list string) (w : World) : World :=
  {| status := status w; files := files w; origin := origin w; branches := b;
     HEAD := HEAD w; staged := staged w; commits := commits w;
     rejects_push := rejects_push w; pushed := pushed w;
     pull_requests := pull_requests w; stdout := stdout w |}.

Definition with_HEAD (h : string) (w : World) : World :=
  {| status := status w; files := files w; origin := origin w; branches := branches w;
     HEAD := h; staged := staged w; commits := commits w;
     rejects_push := rejects_push w; pushed := pushed w;
     pull_requests := pull_requests w; stdout := stdout w |}.

Definition with_staged (s : list string) (w : World) : World :=
  {| status := status w; files := files w; origin := origin w; branches := branches w;
     HEAD := HEAD w; staged := s; commits := commits w;
     rejects_push := rejects_push w; pushed := pushed w;
     pull_requests := pull_requests w; stdout := stdout w |}.

Definition with_commits (c : list (string * string)) (w : World) : World :=
  {| status := status w; files := files w; origin := origin w; branches := branches w;
     HEAD := HEAD w; staged := staged w; commits := c;
     rejects_push := rejects_push w; pushed := pushed w;
     pull_requests := pull_requests w; stdout := stdout w |}.

Definition with_pushed (p : list string) (w : World) : World :=
  {| status := status w; files := files w; origin := origin w; branches := branches w;
     HEAD := HEAD w; staged := staged w; commits := commits w;
     rejects_push := rejects_push w; pushed := p;
     pull_requests := pull_requests w; stdout := stdout w |}.

Definition with_pull_requests (p : list PullRequestParams) (w : World) : World :=
  {| status := status w; files := files w; origin := origin w; branches := branches w;
     HEAD := HEAD w; staged := staged w; commits := commits w;
     rejects_push := rejects_push w; pushed := pushed w;
     pull_requests := p; stdout := stdout w |}.

Definition with_stdout (o : list string) (w : World) : World :=
  {| status := status w; files := files w; origin := origin w; branches := branches w;
     HEAD := HEAD w; staged := staged w; commits := commits w;
     rejects_push := rejects_push w; pushed := pushed w;
     pull_requests := pull_requests w; stdout := o |}.

Fixpoint read (path : string) (fs : list (string * string)) : option string :=
  match fs with
  | [] => None
  | (p, contents) :: rest => if String.eqb p path then Some contents else read path rest
  end.

Fixpoint write (path contents : string) (fs : list (string * string))
  : list (string * string) :=
  match fs with
  | [] => [(path, contents)]
  | (p, old) :: rest =>
      if String.eqb p path then (p, contents) :: rest
      else (p, old) :: write path contents rest
  end.

Definition known (x : string) (l : list string) : bool := existsb (String.eqb x) l.

Definition pull_request_url (n : nat) : string :=
  "https://api.github.com/repos/lerouxb/pmg/pulls/" ++ String (ascii_of_nat (49 + n)) "".

Definition lib : collaborator World :=
  fun c =>
    match c return World -> (error + response c) * World with
    | Git_Repository_open _ => fun w => (inr 1, w)
    | Repository_getStatus _ => fun w => (inr (status w), w)
    | Repository_checkoutBranch _ branch => fun w =>
        if known branch (branches w) then (inr tt, with_HEAD branch w)
        else (inl (LibraryError "no such branch"), w)
    | Repository_getRemote _ name => fun w =>
        match origin w with
        | Some _ => if String.eqb name "origin" then (inr 1, w)
                    else (inl (LibraryError "no such remote"), w)
        | None => (inl (LibraryError "no such remote"), w)
        end
    | Remote_url _ => fun w => (inr (match origin w with Some u => u | None => "" end), w)
    | Repository_fetchAll _ _ => fun w => (inr tt, w)
    | Repository_mergeBranches _ _ _ => fun w => (inr (List.length (commits w)), w)
    | Remote_push _ refSpecs _ => fun w =>
        if rejects_push w then (inl (LibraryError "non-fast-forward"), w)
        else (inr tt, with_pushed (pushed w ++ refSpecs)%list w)
    | Repository_getHeadCommit _ => fun w => (inr (List.length (commits w)), w)
    | Repository_createBranch _ name _ _ => fun w =>
        if known name (branches w) then (inl (LibraryError "branch exists"), w)
        else (inr 1, with_branches (branches w ++ [name])%list w)
    | Repository_defaultSignature _ => fun w => (inr 1, w)
    | Repository_refreshIndex _ => fun w => (inr 1, w)
    | Index_addByPath _ path => fun w => (inr tt, with_staged (staged w ++ [path])%list w)
    | Index_write _ => fun w => (inr tt, w)
    | Index_writeTree _ => fun w => (inr (List.length (staged w)), w)
    | Repository_createCommit _ _ _ _ message _ _ => fun w =>
        (inr (S (List.length (commits w))),
         with_staged [] (with_commits ((HEAD w, message) :: commits w) w))
    | Fs_readFileSync path _ => fun w =>
        match read path (files w) with
        | Some contents => (inr contents, w)
        | None => (inl (LibraryError "ENOENT"), w)
        end
    | Fs_writeFileSync path contents => fun w =>
        (inr tt, with_files (write path contents (files w)) w)
    | Octokit _ => fun w => (inr 1, w)
    | Octokit_authenticate _ _ => fun w => (inr tt, w)
    | Octokit_pullRequests_create _ params => fun w =>
        (inr {| data := {| url := pull_request_url (List.length (pull_requests w)) |} |},
         with_pull_requests (pull_requests w ++ [params])%list w)
    | console_log line => fun w => (inr tt, with_stdout (stdout w ++ [line])%list w)
    end.

(** [Url.parse] on URLs of the shape [scheme://host/path]. *)
Fixpoint after_scheme (s : string) : string :=
  match s with
  | EmptyString => EmptyString
  | String c s' => if prefix "://" s then JsString.slice 3 s else after_scheme s'
  end.

Definition parse_url (url : string) : UrlObject :=
  match JsString.split "/" (after_scheme url) with
  | [] => {| hostname := None; pathname := None |}
  | h :: segments =>
      {| hostname := Some h;
         pathname := Some ("/" ++ JSON.join "/" segments) |}
  end.

(** [JSON.parse] on the texts [JSON.stringify] gives for a finite set of
    known documents. *)
Definition parse_known (documents : list json) (text : string) : option json :=
  find (fun j => String.eqb (JSON.stringify j 2 ++ JSON.newline) text) documents.

Definition runtime (documents : list json) : Runtime :=
  {| Path_resolve := fun directory file => directory ++ "/" ++ file;
     Url_parse := parse_url;
     JSON_parse := parse_known documents;
     exotic_get := fun _ _ => VUndefined;
     exotic_set := fun _ _ _ => None |}.

Definition credentials : Environment :=
  {| GITHUB_USERNAME := Some "lerouxb"; GITHUB_PASSWORD := Some "secret" |}.

(** A manifest with the package under [dependencies]... *)
Definition manifest : json :=
  JObj [("name", JStr "app");
        ("version", JStr "0.1.0");
        ("dependencies", JObj [("left-pad", JStr "1.0.0"); ("hoek", JStr "5.0.3")]);
        ("devDependencies", JObj [("lab", JStr "15.0.0")])].

(** ... and one that only has [devDependencies]. *)
Definition dev_manifest : json :=
  JObj [("name", JStr "app");
        ("devDependencies", JObj [("left-pad", JStr "1.0.0")])].

(** ... and one whose [dependencies] lacks the package. *)
Definition other_manifest : json :=
  JObj [("name", JStr "app");
        ("dependencies", JObj [("hoek", JStr "5.0.3")]);
        ("devDependencies", JObj [("left-pad", JStr "1.0.0")])].

Definition documents : list json := [manifest; dev_manifest; other_manifest].

Definition clean (pkg : json) : World :=
  {| status := [];
     files := [("/repo/package.json", JSON.stringify pkg 2 ++ JSON.newline)];
     origin := Some "https://github.com/lerouxb/pmg.git";
     branches := ["master"];
     HEAD := "master";
     staged := [];
     commits := [("master", "Initial commit")];
     rejects_push := false;
     pushed := [];
     pull_requests := [];
     stdout := [] |}.

Definition dirty (pkg : json) : World :=
  {| status := ["README.md"];
     files := files (clean pkg);
     origin := origin (clean pkg);
     branches := branches (clean pkg);
     HEAD := HEAD (clean pkg);
     staged := [];
     commits := commits (clean pkg);
     rejects_push := false;
     pushed := [];
     pull_requests := [];
     stdout := [] |}.

Definition rejecting (pkg : json) : World :=
  {| status := [];
     files := files (clean pkg);
     origin := origin (clean pkg);
     branches := branches (clean pkg);
     HEAD := HEAD (clean pkg);
     staged := [];
     commits := commits (clean pkg);
     rejects_push := true;
     pushed := [];
     pull_requests := [];
     stdout := [] |}.

End Memory.

(** ** Example runs in the in-memory world *)

Module Example.

Definition node : Runtime := Memory.runtime Memory.documents.

(** The end-to-end scenario: [left-pad] from [1.0.0] to [^1.2.0] in [/repo]. *)
Definition end_to_end : run value Memory.World :=
  exec Memory.lib (bump node Memory.credentials "/repo" "left-pad" "1.0.0" "^1.2.0")
       (Memory.clean Memory.manifest).

Definition end_to_end_draft : run value Memory.World :=
  exec Memory.lib (Draft.bump node Memory.credentials "/repo" "left-pad" "1.0.0" "^1.2.0")
       (Memory.clean Memory.manifest).

(** The same request on a working copy with an uncommitted change. *)
Definition uncommitted : run value Memory.World :=
  exec Memory.lib (bump node Memory.credentials "/repo" "left-pad" "1.0.0" "^1.2.0")
       (Memory.dirty Memory.manifest).

(** The same request when the remote rejects the push. *)
Definition rejected : run value Memory.World :=
  exec Memory.lib (bump node Memory.credentials "/repo" "left-pad" "1.0.0" "^1.2.0")
       (Memory.rejecting Memory.manifest).

(** A request that expects another version than the recorded one. *)
Definition mismatch : run value Memory.World :=
  exec Memory.lib (bump node Memory.credentials "/repo" "left-pad" "0.9.0" "^1.2.0")
       (Memory.clean Memory.manifest).

(** The package is a development dependency; there is no [dependencies]. *)
Definition development_only : run value Memory.World :=
  exec Memory.lib (bump node Memory.credentials "/repo" "left-pad" "1.0.0" "^1.2.0")
       (Memory.clean Memory.dev_manifest).

(** The package is a development dependency; [dependencies] lists others. *)
Definition not_listed : run value Memory.World :=
  exec Memory.lib (bump node Memory.credentials "/repo" "left-pad" "1.0.0" "^1.2.0")
       (Memory.clean Memory.other_manifest).

(** The package name is also the name of a member of [Object.prototype]. *)
Definition inherited_name : run value Memory.World :=
  exec Memory.lib (bump node Memory.credentials "/repo" "constructor" "1.0.0" "^1.2.0")
       (Memory.clean Memory.manifest).

(** [GITHUB_PASSWORD] is not set. *)
Definition no_password : Environment :=
  {| GITHUB_USERNAME := Some "lerouxb"; GITHUB_PASSWORD := None |}.

End Example.


(* ===================================================================== *)
(** * More of what a run did

    Further vocabulary for statements about runs: the library function each
    call goes to, the arguments the script passed, and the errors it was
    answered with. *)

Definition is_fetch (c : call) : bool :=
  match c with Repository_fetchAll _ _ => true | _ => false end.

Definition is_merge (c : call) : bool :=
  match c with Repository_mergeBranches _ _ _ => true | _ => false end.

Definition is_stage (c : call) : bool :=
  match c with Index_addByPath _ _ => true | _ => false end.

Definition is_index_write (c : call) : bool :=
  match c with Index_write _ | Index_writeTree _ => true | _ => false end.

(** The calls that go to the hosting API or read where it is. *)
Definition is_hosting (c : call) : bool :=
  match c with
  | Remote_url _
  | Octokit _
  | Octokit_authenticate _ _
  | Octokit_pullRequests_create _ _ => true
  | _ => false
  end.

(** The library function a call goes to. *)
Definition label (c : call) : string :=
  match c with
  | Git_Repository_open _ => "Git.Repository.open"
  | Repository_getStatus _ => "repo.getStatus"
  | Repository_checkoutBranch _ _ => "repo.checkoutBranch"
  | Repository_getRemote _ _ => "repo.getRemote"
  | Remote_url _ => "remote.url"
  | Repository_fetchAll _ _ => "repo.fetchAll"
  | Repository_mergeBranches _ _ _ => "repo.mergeBranches"
  | Remote_push _ _ _ => "remote.push"
  | Repository_getHeadCommit _ => "repo.getHeadCommit"
  | Repository_createBranch _ _ _ _ => "repo.createBranch"
  | Repository_defaultSignature _ => "repo.defaultSignature"
  | Repository_refreshIndex _ => "repo.refreshIndex"
  | Index_addByPath _ _ => "index.addByPath"
  | Index_write _ => "index.write"
  | Index_writeTree _ => "index.writeTree"
  | Repository_createCommit _ _ _ _ _ _ _ => "repo.createCommit"
  | Fs_readFileSync _ _ => "Fs.readFileSync"
  | Fs_writeFileSync _ _ => "Fs.writeFileSync"
  | Octokit _ => "Octokit"
  | Octokit_authenticate _ _ => "octokit.authenticate"
  | Octokit_pullRequests_create _ _ => "octokit.pullRequests.create"
  | console_log _ => "console.log"
  end.

(** The library functions a run called, in order. *)
Definition steps (t : list event) : list string :=
  List.map (fun ev => label (called ev)) t.

(** The calls of [internals.getRepoInfo], of the clean-tree check, of the
    sync, of the version check, of the branch creation, of the manifest
    update, of the commit and of the push, in the order of [exports.bump]. *)
Definition remote_steps : list string :=
  ["Git.Repository.open"; "repo.getRemote"; "remote.url"].

Definition working_steps : list string :=
  ["Git.Repository.open"; "repo.getStatus";
   "Git.Repository.open"; "repo.checkoutBranch";
   "Git.Repository.open"; "repo.fetchAll"; "repo.mergeBranches";
   "Fs.readFileSync";
   "Git.Repository.open"; "repo.getHeadCommit"; "repo.createBranch";
   "Git.Repository.open"; "repo.checkoutBranch";
   "Fs.writeFileSync";
   "Git.Repository.open"; "repo.defaultSignature"; "repo.refreshIndex";
   "index.addByPath"; "index.write"; "index.writeTree";
   "repo.getHeadCommit"; "repo.createCommit";
   "Git.Repository.open"; "repo.getRemote"; "remote.push";
   "console.log"].

Definition hosting_steps : list string :=
  ["Octokit"; "octokit.authenticate"; "octokit.pullRequests.create"; "console.log"].

Definition bump_steps : list string :=
  (remote_steps ++ working_steps ++ hosting_steps)%list.

Definition draft_steps : list string := working_steps.

(** [l] is the beginning of [whole]. *)
Fixpoint begins (l whole : list string) : bool :=
  match l, whole with
  | [], _ => true
  | x :: l', y :: whole' => String.eqb x y && begins l' whole'
  | _ :: _, [] => false
  end.

(** The errors the calls were answered with. *)
Fixpoint failures (t : list event) : list error :=
  match t with
  | [] => []
  | Event _ (inl e) :: rest => e :: failures rest
  | Event _ (inr _) :: rest => failures rest
  end.

(** The paths that were staged (calls answered with an error do not count),
    and the paths the script asked to stage. *)
Fixpoint staged (t : list event) : list string :=
  match t with
  | [] => []
  | Event c answer :: rest =>
      match c, answer with
      | Index_addByPath _ path, inr _ => path :: staged rest
      | _, _ => staged rest
      end
  end.

Fixpoint staging (t : list event) : list string :=
  match t with
  | [] => []
  | Event c _ :: rest =>
      match c with
      | Index_addByPath _ path => path :: staging rest
      | _ => staging rest
      end
  end.

(** The URL the remote answered with. *)
Fixpoint remote_url_seen (t : list event) : option string :=
  match t with
  | [] => None
  | Event c answer :: rest =>
      match c return error + response c -> option string with
      | Remote_url _ => fun answer =>
          match answer with
          | inr remote_url => Some remote_url
          | inl _ => remote_url_seen rest
          end
      | _ => fun _ => remote_url_seen rest
      end answer
  end.

(** The base URLs the Octokit clients were made for. *)
Fixpoint base_urls (t : list event) : list string :=
  match t with
  | [] => []
  | Event c _ :: rest =>
      match c with
      | Octokit baseUrl => baseUrl :: base_urls rest
      | _ => base_urls rest
      end
  end.

(** The arguments of [octokit.authenticate]. *)
Fixpoint authentications (t : list event) : list Authentication :=
  match t with
  | [] => []
  | Event c _ :: rest =>
      match c with
      | Octokit_authenticate _ options => options :: authentications rest
      | _ => authentications rest
      end
  end.

(** The options [fetchAll] and [push] were called with. *)
Fixpoint git_options_used (t : list event) : list GitOptions :=
  match t with
  | [] => []
  | Event c _ :: rest =>
      match c with
      | Repository_fetchAll _ options => options :: git_options_used rest
      | Remote_push _ _ options => options :: git_options_used rest
      | _ => git_options_used rest
      end
  end.

(** What the script asked for, whether or not it was granted: the branches
    to create (with the [force] flag), the branches to check out, the merges
    (into, from), the refspecs to push, the files to read and the commits to
    make. *)
Fixpoint branch_requests (t : list event) : list (string * bool) :=
  match t with
  | [] => []
  | Event c _ :: rest =>
      match c with
      | Repository_createBranch _ name _ force => (name, force) :: branch_requests rest
      | _ => branch_requests rest
      end
  end.

Fixpoint checkout_requests (t : list event) : list string :=
  match t with
  | [] => []
  | Event c _ :: rest =>
      match c with
      | Repository_checkoutBranch _ branch => branch :: checkout_requests rest
      | _ => checkout_requests rest
      end
  end.

Fixpoint merge_requests (t : list event) : list (string * string) :=
  match t with
  | [] => []
  | Event c _ :: rest =>
      match c with
      | Repository_mergeBranches _ to from => (to, from) :: merge_requests rest
      | _ => merge_requests rest
      end
  end.

Fixpoint push_requests (t : list event) : list (list string) :=
  match t with
  | [] => []
  | Event c _ :: rest =>
      match c with
      | Remote_push _ refSpecs _ => refSpecs :: push_requests rest
      | _ => push_requests rest
      end
  end.

Fixpoint files_read (t : list event) : list (string * string) :=
  match t with
  | [] => []
  | Event c _ :: rest =>
      match c with
      | Fs_readFileSync path encoding => (path, encoding) :: files_read rest
      | _ => files_read rest
      end
  end.

Record CommitRequest : Type := {
  commit_updateRef : string;
  commit_author : Signature;
  commit_committer : Signature;
  commit_message : string;
  commit_tree : Oid;
  commit_parents : list Commit
}.

Fixpoint commit_requests (t : list event) : list CommitRequest :=
  match t with
  | [] => []
  | Event c _ :: rest =>
      match c with
      | Repository_createCommit _ updateRef author committer message tree parents =>
          {| commit_updateRef := updateRef; commit_author := author;
             commit_committer := committer; commit_message := message;
             commit_tree := tree; commit_parents := parents |}
          :: commit_requests rest
      | _ => commit_requests rest
      end
  end.

(** The commits [getHeadCommit] answered with, and the commits the script
    asked to start a branch at. *)
Fixpoint heads_seen (t : list event) : list Commit :=
  match t with
  | [] => []
  | Event c answer :: rest =>
      match c return error + response c -> list Commit with
      | Repository_getHeadCommit _ => fun answer =>
          match answer with
          | inr head => head :: heads_seen rest
          | inl _ => heads_seen rest
          end
      | _ => fun _ => heads_seen rest
      end answer
  end.

Fixpoint branch_points (t : list event) : list Commit :=
  match t with
  | [] => []
  | Event c _ :: rest =>
      match c with
      | Repository_createBranch _ _ commit _ => commit :: branch_points rest
      | _ => branch_points rest
      end
  end.

(** The events of staging [paths] one after the other without an error. *)
Definition staging_events (index : Index) (paths : list string) : list event :=
  List.map (fun path => Event (Index_addByPath index path) (inr tt)) paths.

(** [pattern] occurs in [s]. *)
Fixpoint occurs (pattern s : string) : bool :=
  prefix pattern s
  || match s with
     | EmptyString => false
     | String _ s' => occurs pattern s'
     end.

(** ** More example worlds *)

Module Scenario.

(** The manifest of the end-to-end scenario after the bump. *)
Definition bumped_manifest : json :=
  JObj [("name", JStr "app");
        ("version", JStr "0.1.0");
        ("dependencies", JObj [("left-pad", JStr "^1.2.0"); ("hoek", JStr "5.0.3")]);
        ("devDependencies", JObj [("lab", JStr "15.0.0")])].

Definition node : Runtime :=
  Memory.runtime [Memory.manifest; bumped_manifest].

(** A runtime whose [Url.parse] finds neither host nor path. *)
Definition node_without_path : Runtime :=
  {| Path_resolve := Path_resolve Example.node;
     Url_parse := fun _ => {| hostname := None; pathname := None |};
     JSON_parse := JSON_parse Example.node;
     exotic_get := exotic_get Example.node;
     exotic_set := exotic_set Example.node |}.

(** The working copy of the end-to-end scenario, as the first bump left it on
    disk, checked out anew. *)
Definition bumped : Memory.World := Memory.clean bumped_manifest.

(** The branch of the bump exists already. *)
Definition branch_exists : Memory.World :=
  Memory.with_branches ["master"; "bump-left-pad-v1.2.0"] (Memory.clean Memory.manifest).

(** [package.json] does not hold JSON. *)
Definition garbled : Memory.World :=
  Memory.with_files [("/repo/package.json", "<<<<<<< HEAD")] (Memory.clean Memory.manifest).

(** The remote is an Enterprise host, and the repository name has [.git] in
    the middle. *)
Definition pages : Memory.World :=
  {| Memory.status := [];
     Memory.files := Memory.files (Memory.clean Memory.manifest);
     Memory.origin := Some "https://git.example.com/lerouxb/lerouxb.github.io.git";
     Memory.branches := ["master"];
     Memory.HEAD := "master";
     Memory.staged := [];
     Memory.commits := [("master", "Initial commit")];
     Memory.rejects_push := false;
     Memory.pushed := [];
     Memory.pull_requests := [];
     Memory.stdout := [] |}.

(** The in-memory world, except that the path [missing] cannot be staged. *)
Definition without_file (missing : string) : collaborator Memory.World :=
  fun c w =>
    match c with
    | Index_addByPath _ path =>
        if String.eqb path missing
        then (inl (LibraryError "could not find the file"), w)
        else Memory.lib c w
    | _ => Memory.lib c w
    end.

(** [GITHUB_USERNAME] is set to the empty string. *)
Definition empty_username : Environment :=
  {| GITHUB_USERNAME := Some ""; GITHUB_PASSWORD := Some "secret" |}.

End Scenario.

(* ===================================================================== *)
(** * Naming *)

Lemma replace_class_g_strips (class : list ascii) (s : string) :
  JsString.replace_class_g class "" s = SpecNaming.strip class s.
Proof.
  unfold SpecNaming.strip.
  induction s as [|c s IH]; simpl; [reflexivity|].
  destruct (existsb (Ascii.eqb c) class); simpl; rewrite IH; reflexivity.
Qed.

Lemma strip_leaves_none (class : list ascii) (c : ascii) (s : string) :
  In c class -> JsString.mem c (SpecNaming.strip class s) = false.
Proof.
  intros Hc. unfold SpecNaming.strip.
  induction s as [|d s IH]; simpl; [reflexivity|].
  destruct (existsb (Ascii.eqb d) class) eqn:E; simpl; [exact IH|].
  rewrite IH, orb_false_r.
  destruct (Ascii.eqb_spec d c) as [->|]; [|reflexivity].
  exfalso. rewrite <- not_true_iff_false in E. apply E.
  apply existsb_exists. exists c. split; [assumption | apply Ascii.eqb_refl].
Qed.

Lemma replace_removes_first (c : ascii) (s : string) :
  JsString.replace s (String c "") "" = JsString.remove_first c s.
Proof.
  induction s as [|d s IH]; [reflexivity|].
  cbn [JsString.replace JsString.remove_first prefix String.length JsString.slice].
  destruct (ascii_dec c d) as [->|Hne].
  - rewrite Ascii.eqb_refl. destruct s; reflexivity.
  - destruct (Ascii.eqb_spec d c) as [->|_]; [contradiction|].
    rewrite IH. reflexivity.
Qed.

Lemma replace_substitutes_first (c d : ascii) (s : string) :
  JsString.replace s (String c "") (String d "") = JsString.subst_first c d s.
Proof.
  induction s as [|e s IH]; [reflexivity|].
  cbn [JsString.replace JsString.subst_first prefix String.length JsString.slice].
  destruct (ascii_dec c e) as [->|Hne].
  - rewrite Ascii.eqb_refl. destruct s; reflexivity.
  - destruct (Ascii.eqb_spec e c) as [->|_]; [contradiction|].
    rewrite IH. reflexivity.
Qed.

Lemma safePackageName_first_occurrences (packageName : string) :
  safePackageName packageName
  = JsString.subst_first "/" "-" (JsString.remove_first "@" packageName).
Proof.
  unfold safePackageName.
  rewrite (replace_removes_first "@"), (replace_substitutes_first "/" "-").
  reflexivity.
Qed.

Lemma remove_first_single (c : ascii) (s : string) :
  JsString.count c s <= 1 ->
  JsString.remove_first c s = SpecNaming.strip [c] s.
Proof.
  unfold SpecNaming.strip.
  induction s as [|d s IH]; simpl; intros Hcount; [reflexivity|].
  rewrite orb_false_r.
  destruct (Ascii.eqb d c) eqn:E; simpl in *.
  - assert (H0 : JsString.count c s = 0) by lia.
    clear IH Hcount. induction s as [|e s IH]; simpl in *; [reflexivity|].
    rewrite orb_false_r.
    destruct (Ascii.eqb e c); simpl in *; [discriminate|].
    rewrite <- IH by assumption. reflexivity.
  - rewrite IH by assumption. reflexivity.
Qed.

Lemma subst_first_single (c d : ascii) (s : string) :
  JsString.count c s <= 1 ->
  JsString.subst_first c d s
  = JsString.map (fun e => if Ascii.eqb e c then d else e) s.
Proof.
  induction s as [|e s IH]; simpl; intros Hcount; [reflexivity|].
  destruct (Ascii.eqb e c) eqn:E; simpl in *.
  - f_equal. assert (H0 : JsString.count c s = 0) by lia.
    clear IH Hcount. induction s as [|x s IH]; simpl in *; [reflexivity|].
    destruct (Ascii.eqb x c); simpl in *; [discriminate|].
    rewrite <- IH by assumption. reflexivity.
  - rewrite IH by assumption. reflexivity.
Qed.

Lemma count_strip_other (c d : ascii) (s : string) :
  c <> d -> JsString.count c (SpecNaming.strip [d] s) = JsString.count c s.
Proof.
  intros Hne. unfold SpecNaming.strip.
  induction s as [|e s IH]; simpl in *; [reflexivity|].
  rewrite orb_false_r.
  destruct (Ascii.eqb_spec e d) as [->|_]; simpl.
  - destruct (Ascii.eqb_spec d c) as [->|_]; [contradiction | exact IH].
  - rewrite IH. reflexivity.
Qed.

(** C2 (as the code has it).  The branch name and the commit message are
    functions of the package name and the target version alone:
    [bump-<name>-v<version>] and [Bump <name> to v<version>], where
    <version> is the target version without any [^] or [~], and <name> is the
    package name with its first [@] removed and its first [/] replaced by
    [-]; for a package name with at most one [@] and at most one [/] (the
    [@scope/name] form) that is: every [@] removed, every [/] turned into
    [-]. *)
Theorem naming_of_branch_and_commit (packageName afterVersion : string) :
  branchName packageName afterVersion
  = "bump-" ++ safePackageName packageName ++ "-v" ++ safeVersion afterVersion
  /\ commitMessage packageName afterVersion
     = "Bump " ++ safePackageName packageName ++ " to v" ++ safeVersion afterVersion
  /\ safeVersion afterVersion = SpecNaming.sanitizedVersion afterVersion
  /\ JsString.mem "^" (safeVersion afterVersion) = false
  /\ JsString.mem "~" (safeVersion afterVersion) = false
  /\ safePackageName packageName
     = JsString.subst_first "/" "-" (JsString.remove_first "@" packageName)
  /\ (JsString.count "@" packageName <= 1 ->
      JsString.count "/" packageName <= 1 ->
      safePackageName packageName
      = JsString.map (fun c => if Ascii.eqb c "/" then "-"%char else c)
          (SpecNaming.strip ["@"%char] packageName)).
Proof.
  assert (Hv : safeVersion afterVersion = SpecNaming.sanitizedVersion afterVersion)
    by apply replace_class_g_strips.
  repeat split.
  - exact Hv.
  - rewrite Hv. apply strip_leaves_none. simpl. auto.
  - rewrite Hv. apply strip_leaves_none. simpl. auto.
  - apply safePackageName_first_occurrences.
  - intros Hat Hslash.
    rewrite safePackageName_first_occurrences.
    rewrite remove_first_single by assumption.
    apply subst_first_single.
    rewrite count_strip_other by discriminate. assumption.
Qed.

Lemma naming_of_branch_and_commit_witness :
  JsString.count "@" "@hapi/hoek" <= 1
  /\ JsString.count "/" "@hapi/hoek" <= 1
  /\ safePackageName "@hapi/hoek" = "hapi-hoek".
Proof.
  split; [simpl; lia|]. split; [simpl; lia|].
  destruct (naming_of_branch_and_commit "@hapi/hoek" "^5.0.3")
    as (_ & _ & _ & _ & _ & _ & H).
  rewrite H; [reflexivity | simpl; lia | simpl; lia].
Defined.

(** C2 as the specification words it fails: the [/] of a scoped package name
    is not stripped, it becomes [-]. *)
Lemma naming_strips_slash_counterexample :
  branchName "@hapi/hoek" "^5.0.3" = "bump-hapi-hoek-v5.0.3"
  /\ SpecNaming.branchName "@hapi/hoek" "^5.0.3" = "bump-hapihoek-v5.0.3"
  /\ branchName "@hapi/hoek" "^5.0.3" <> SpecNaming.branchName "@hapi/hoek" "^5.0.3"
  /\ commitMessage "@hapi/hoek" "^5.0.3" <> SpecNaming.commitMessage "@hapi/hoek" "^5.0.3".
Proof.
  repeat split; try reflexivity; vm_compute; discriminate.
Qed.

(* ===================================================================== *)
(** * The API base URL *)

(** C8.  [getBaseUrl] is a function of the host name: [github.com] gives
    [https://api.github.com], every other host [H] gives [https://H/api/v3]. *)
Theorem getBaseUrl_of_host :
  getBaseUrl (Some "github.com") = "https://api.github.com"
  /\ forall H : string,
       H <> "github.com" -> getBaseUrl (Some H) = "https://" ++ H ++ "/api/v3".
Proof.
  split; [reflexivity|].
  intros H Hne. unfold getBaseUrl, strict_equals.
  destruct (String.eqb_spec H "github.com"); [contradiction | reflexivity].
Qed.

Lemma getBaseUrl_of_host_witness :
  "git.example.com" <> "github.com"
  /\ getBaseUrl (Some "git.example.com") = "https://git.example.com/api/v3".
Proof.
  assert (Hne : "git.example.com" <> "github.com") by discriminate.
  split; [exact Hne|].
  exact (proj2 getBaseUrl_of_host "git.example.com" Hne).
Defined.

(* ===================================================================== *)
(** * Runs of the script, step by step

    A run is followed call by call: each answer of the outside world is
    either an error, which ends the run, or a value, with which the script
    goes on; each check of the script passes or throws. *)

(** What the script is about to look at: the condition of an assertion, the
    status list behind the clean-tree assertion, or the result of a pure
    expression that may throw. *)
Ltac next_test p :=
  lazymatch p with
  | bind ?m _ => next_test m
  | Hoek_assert (negb match List.length ?l with O => _ | S _ => _ end) _ => l
  | Hoek_assert ?b _ => b
  | or_TypeError ?o => o
  | (if ?b then _ else _) => b
  | (match ?x with _ => _ end) => x
  end.

Ltac unfold_script Hr :=
  unfold bump, Draft.bump, getRepoInfo, repoHasUncommittedChanges, checkoutBranch,
    pull, push, lookupRemote, createBranch, commitPaths, createPR in Hr.

(** Every way the run [Hr : r = exec lib p w] can go; [leaf] closes each. *)
Ltac follow lib Hr leaf :=
  cbn [exec bind perform Hoek_assert or_TypeError addPaths
       negb Nat.ltb Nat.leb List.length] in Hr;
  lazymatch type of Hr with
  | context [match lib ?c ?w with _ => _ end] =>
      destruct (lib c w) as [[?e|?a] ?w] eqn:?; follow lib Hr leaf
  | context [exec lib ?p ?w] =>
      let x := next_test p in destruct x eqn:?; follow lib Hr leaf
  | _ => leaf
  end.

(** At the end of a run, [Hr : r = Run result trace world] with every event
    known; what the trace says is computed. *)
Ltac finished Hr :=
  cbn [following] in Hr; subst.

Ltac observe :=
  cbn [result trace world never only did forallb existsb called succeeded negb
       andb orb is_checkout is_create_branch is_commit is_push is_file_write
       is_pull_request mutates_git inspects_git in_push_step reported_clean
       status_seen manifest_read writes requested created printed
       branches_created checked_out committed pushed failure option_map
       final_event ended_by_failed List.last List.removelast List.map List.app].

(* ===================================================================== *)
(** * The credentials are checked first *)

(** C5.  When [GITHUB_USERNAME] or [GITHUB_PASSWORD] is absent, the run (of
    the script, and of its draft) throws the assertion error of the
    credential check without having called any library: nothing was asked of
    git, nothing was read or written on disk, nothing went over the network
    or to the console, and the world is as it was. *)
Theorem missing_credentials_abort_without_effect
  {W : Type} (lib : collaborator W) (node : Runtime) (env : Environment)
  (inputPath packageName beforeVersion afterVersion : string) (w : W)
  (r : run value W) :
  r = exec lib (bump node env inputPath packageName beforeVersion afterVersion) w
  \/ r = exec lib (Draft.bump node env inputPath packageName beforeVersion afterVersion) w ->
  GITHUB_USERNAME env = None \/ GITHUB_PASSWORD env = None ->
  (result r = Thrown (AssertionError "GITHUB_USERNAME required")
   \/ result r = Thrown (AssertionError "GITHUB_PASSWORD required"))
  /\ trace r = []
  /\ world r = w.
Proof.
  intros Hr Habsent.
  assert (Hfalse : truthy (GITHUB_USERNAME env) = false
                   \/ truthy (GITHUB_PASSWORD env) = false).
  { destruct Habsent as [H|H]; rewrite H; [left | right]; reflexivity. }
  destruct Hr as [Hr|Hr]; unfold bump, Draft.bump in Hr;
    destruct (truthy (GITHUB_USERNAME env)) eqn:Hu;
    destruct (truthy (GITHUB_PASSWORD env)) eqn:Hp;
    cbn [exec bind Hoek_assert] in Hr; subst r;
    try (destruct Hfalse; discriminate);
    cbn [result trace world]; auto.
Qed.

Lemma missing_credentials_abort_without_effect_witness :
  result (exec Memory.lib
            (bump Example.node Example.no_password "/repo" "left-pad" "1.0.0" "^1.2.0")
            (Memory.clean Memory.manifest))
  = Thrown (AssertionError "GITHUB_PASSWORD required")
  /\ trace (exec Memory.lib
              (bump Example.node Example.no_password "/repo" "left-pad" "1.0.0" "^1.2.0")
              (Memory.clean Memory.manifest)) = [].
Proof.
  destruct (missing_credentials_abort_without_effect
              Memory.lib Example.node Example.no_password
              "/repo" "left-pad" "1.0.0" "^1.2.0" (Memory.clean Memory.manifest) _
              (or_introl eq_refl) (or_intror eq_refl)) as (_ & Htrace & _).
  split; [reflexivity | exact Htrace].
Defined.

(* ===================================================================== *)
(** * The working copy must be clean *)

(** C4.  In a run in which the status query never answers "nothing changed"
    (the working copy has a tracked or untracked change), the script throws,
    and every call it made only inspected the repository: there was no
    checkout, no branch creation, no commit, no push, no other change to the
    repository, and no file was written.  When the status was reported, the
    error is the assertion error of the clean-tree check. *)
Theorem uncommitted_changes_abort_before_mutation
  {W : Type} (lib : collaborator W) (node : Runtime) (env : Environment)
  (inputPath packageName beforeVersion afterVersion : string) (w : W)
  (r : run value W) :
  r = exec lib (bump node env inputPath packageName beforeVersion afterVersion) w
  \/ r = exec lib (Draft.bump node env inputPath packageName beforeVersion afterVersion) w ->
  reported_clean (trace r) = false ->
  (exists e, result r = Thrown e)
  /\ never is_checkout (trace r) = true
  /\ never is_create_branch (trace r) = true
  /\ never is_commit (trace r) = true
  /\ never is_push (trace r) = true
  /\ never mutates_git (trace r) = true
  /\ never is_file_write (trace r) = true
  /\ only inspects_git (trace r) = true
  /\ (forall statuses,
        status_seen (trace r) = Some statuses ->
        result r = Thrown (AssertionError
                             ("The repo (" ++ inputPath ++ ") has uncommitted changes."))).
Proof.
  intros Hr; destruct Hr as [Hr|Hr]; unfold_script Hr;
    follow lib Hr
      ltac:(finished Hr; observe; intros Hdirty; try discriminate;
            repeat split; try reflexivity; try (eexists; reflexivity);
            intros statuses Hseen; try discriminate; reflexivity).
Qed.

Lemma uncommitted_changes_abort_before_mutation_witness :
  reported_clean (trace Example.uncommitted) = false
  /\ never mutates_git (trace Example.uncommitted) = true
  /\ result Example.uncommitted
     = Thrown (AssertionError "The repo (/repo) has uncommitted changes.").
Proof.
  assert (Hdirty : reported_clean (trace Example.uncommitted) = false)
    by (vm_compute; reflexivity).
  destruct (uncommitted_changes_abort_before_mutation
              Memory.lib Example.node Memory.credentials
              "/repo" "left-pad" "1.0.0" "^1.2.0" (Memory.dirty Memory.manifest) _
              (or_introl eq_refl) Hdirty)
    as (_ & _ & _ & _ & _ & Hnever & _ & _ & Hmessage).
  split; [exact Hdirty|]. split; [exact Hnever|].
  apply (Hmessage ["README.md"]). vm_compute. reflexivity.
Defined.

(* ===================================================================== *)
(** * Reading and writing the dependency entry *)

Lemma own_overwrite_same (key : string) (v old : json) (fields : list (string * json)) :
  JsObject.own key fields = Some old ->
  JsObject.own key (JsObject.overwrite key v fields) = Some v.
Proof.
  induction fields as [|[k x] rest IH]; simpl; [discriminate|].
  destruct (String.eqb k key) eqn:E; simpl; rewrite E; [reflexivity | exact IH].
Qed.

Lemma own_overwrite_other (key other : string) (v : json) (fields : list (string * json)) :
  other <> key ->
  JsObject.own other (JsObject.overwrite key v fields) = JsObject.own other fields.
Proof.
  intros Hne. induction fields as [|[k x] rest IH]; simpl; [reflexivity|].
  destruct (String.eqb_spec k key) as [->|Hk]; simpl.
  - destruct (String.eqb_spec key other) as [->|_]; [contradiction | reflexivity].
  - rewrite IH. reflexivity.
Qed.

Lemma keys_overwrite (key : string) (v : json) (fields : list (string * json)) :
  List.map fst (JsObject.overwrite key v fields) = List.map fst fields.
Proof.
  induction fields as [|[k x] rest IH]; simpl; [reflexivity|].
  destruct (String.eqb k key); simpl; [reflexivity | rewrite IH; reflexivity].
Qed.

Lemma set_existing (key : string) (v old : json) (fields : list (string * json)) :
  JsObject.own key fields = Some old ->
  JsObject.set fields key v = JsObject.overwrite key v fields.
Proof. intros H. unfold JsObject.set. rewrite H. reflexivity. Qed.

(** A member inherited from [Object.prototype] is never a string. *)
Lemma inherited_is_no_string (key s : string) :
  strict_equals_string (JsObject.inherited key) s = false.
Proof.
  unfold JsObject.inherited.
  repeat match goal with |- context [if ?b then _ else _] => destruct b end;
    reflexivity.
Qed.

Lemma inherited_is_shown (key : string) :
  exists shown,
    ToString (JsObject.inherited key) = Some shown
    /\ (JsObject.inherited key = VUndefined -> shown = "undefined").
Proof.
  unfold JsObject.inherited.
  repeat match goal with |- context [if ?b then _ else _] => destruct b end;
    simpl; eexists; (split; [reflexivity|]); intros H;
    solve [discriminate H | reflexivity].
Qed.

(** The entry that passed the version check is an own entry of
    [dependencies], holding the expected string. *)
Lemma expected_version_is_own (dependencies : list (string * json))
      (packageName beforeVersion : string) :
  strict_equals_string (JsObject.get dependencies packageName) beforeVersion = true ->
  JsObject.own packageName dependencies = Some (JStr beforeVersion).
Proof.
  unfold JsObject.get.
  destruct (JsObject.own packageName dependencies) as [[| | |s| |]|]; simpl;
    try discriminate.
  - intros H. apply String.eqb_eq in H. subst. reflexivity.
  - rewrite inherited_is_no_string. discriminate.
Qed.

Lemma dependencies_set_frame (node : Runtime) (fields dependencies : list (string * json))
      (packageName beforeVersion afterVersion : string) (recorded : value) (pkg' : json) :
  JsObject.own "dependencies" fields = Some (JObj dependencies) ->
  dependencies_get node (JObj fields) packageName = Some recorded ->
  strict_equals_string recorded beforeVersion = true ->
  dependencies_set node (JObj fields) packageName afterVersion = Some pkg' ->
  JsObject.own packageName dependencies = Some (JStr beforeVersion)
  /\ exists fields' dependencies',
       pkg' = JObj fields'
       /\ JsObject.own "dependencies" fields' = Some (JObj dependencies')
       /\ JsObject.own packageName dependencies' = Some (JStr afterVersion)
       /\ (forall other, other <> packageName ->
             JsObject.own other dependencies' = JsObject.own other dependencies)
       /\ (forall other, other <> "dependencies" ->
             JsObject.own other fields' = JsObject.own other fields)
       /\ List.map fst fields' = List.map fst fields
       /\ List.map fst dependencies' = List.map fst dependencies.
Proof.
  intros Hdeps Hget Hexpected Hset.
  unfold dependencies_get in Hget. unfold dependencies_set in Hset.
  rewrite Hdeps in Hget, Hset.
  injection Hget as <-. injection Hset as <-.
  pose proof (expected_version_is_own _ _ _ Hexpected) as Hown.
  split; [exact Hown|].
  rewrite (set_existing _ (JStr afterVersion) _ _ Hown).
  eexists. eexists. split; [reflexivity|].
  split; [exact (own_overwrite_same _ _ _ _ Hdeps)|].
  split; [exact (own_overwrite_same _ _ _ _ Hown)|].
  split; [intros other Hne; apply own_overwrite_other; exact Hne|].
  split; [intros other Hne; apply own_overwrite_other; exact Hne|].
  split; apply keys_overwrite.
Qed.

Lemma lacks_dependency_cases (node : Runtime) (pkg : json) (packageName : string) :
  lacks_dependency pkg packageName = true ->
  exists fields,
    pkg = JObj fields
    /\ ((JsObject.own "dependencies" fields = None
         /\ dependencies_get node pkg packageName = None)
        \/ (exists dependencies,
              JsObject.own "dependencies" fields = Some (JObj dependencies)
              /\ JsObject.own packageName dependencies = None
              /\ dependencies_get node pkg packageName
                 = Some (JsObject.inherited packageName))).
Proof.
  unfold lacks_dependency, dependencies_get.
  destruct pkg as [| | | | |fields]; try discriminate.
  intros H. exists fields. split; [reflexivity|].
  destruct (JsObject.own "dependencies" fields) as [[| | | | |dependencies]|];
    try discriminate; [|left; split; reflexivity].
  right. exists dependencies. unfold JsObject.get.
  destruct (JsObject.own packageName dependencies); [discriminate|].
  repeat split; reflexivity.
Qed.

(* ===================================================================== *)
(** * The recorded version must be the expected one *)

(** Two readings of the same expression agree. *)
Ltac agree :=
  repeat match goal with
         | H : ?x = Some _, H' : ?x = None |- _ => rewrite H in H'; discriminate H'
         | H : ?x = true, H' : ?x = false |- _ => rewrite H in H'; discriminate H'
         | H : ?x = Some ?a, H' : ?x = Some ?b |- _ =>
             rewrite H in H'; injection H' as <-
         end.

(** A run that read the manifest and did not find the expected version there
    ends with that read. *)
Lemma version_check_outcome
  {W : Type} (lib : collaborator W) (node : Runtime) (env : Environment)
  (inputPath packageName beforeVersion afterVersion : string) (w : W)
  (r : run value W) :
  r = exec lib (bump node env inputPath packageName beforeVersion afterVersion) w
  \/ r = exec lib (Draft.bump node env inputPath packageName beforeVersion afterVersion) w ->
  forall (text : string) (pkg : json),
    manifest_read (trace r) = Some text ->
    JSON_parse node text = Some pkg ->
    (forall recorded,
       dependencies_get node pkg packageName = Some recorded ->
       strict_equals_string recorded beforeVersion = false) ->
    result r = Thrown match dependencies_get node pkg packageName with
                      | None => TypeError
                      | Some recorded =>
                          match ToString recorded with
                          | Some shown =>
                              AssertionError (shown ++ " must equal " ++ beforeVersion)
                          | None => TypeError
                          end
                      end
    /\ final_event (trace r)
       = Some (Event (Fs_readFileSync (Path_resolve node inputPath "package.json") "utf8")
                     (inr text))
    /\ never is_create_branch (trace r) = true
    /\ never is_file_write (trace r) = true
    /\ never is_commit (trace r) = true
    /\ never is_push (trace r) = true
    /\ never is_pull_request (trace r) = true.
Proof.
  intros Hr; destruct Hr as [Hr|Hr]; unfold_script Hr;
    follow lib Hr
      ltac:(finished Hr; observe;
            intros text pkg Hread Hparse Hdiffers;
            try discriminate; injection Hread as <-; agree;
            try match goal with
                | H : dependencies_get _ _ _ = Some _ |- _ =>
                    pose proof (Hdiffers _ H); agree
                end;
            repeat split; try reflexivity;
            repeat match goal with
                   | H : ?x = _ |- context [match ?x with _ => _ end] => rewrite H
                   end; reflexivity).
Qed.

(** C3.  In a run (of the script, and of its draft) that read the manifest
    and found, for the package, a value that is not a string equal to
    [beforeVersion], the script throws the assertion error of the version
    check, [<recorded> must equal <beforeVersion>]: so it is when the
    recorded value is another version string, and when it is [undefined]
    (only a recorded value that is an object which cannot be shown in the
    message makes it a [TypeError]).  Reading the manifest was the last
    thing the run did: no branch was created, no file written, nothing
    committed or pushed, no pull request asked for. *)
Theorem version_mismatch_aborts_before_branch
  {W : Type} (lib : collaborator W) (node : Runtime) (env : Environment)
  (inputPath packageName beforeVersion afterVersion : string) (w : W)
  (r : run value W) :
  r = exec lib (bump node env inputPath packageName beforeVersion afterVersion) w
  \/ r = exec lib (Draft.bump node env inputPath packageName beforeVersion afterVersion) w ->
  forall (text : string) (pkg : json) (recorded : value),
    manifest_read (trace r) = Some text ->
    JSON_parse node text = Some pkg ->
    dependencies_get node pkg packageName = Some recorded ->
    strict_equals_string recorded beforeVersion = false ->
    result r = Thrown match ToString recorded with
                      | Some shown => AssertionError (shown ++ " must equal " ++ beforeVersion)
                      | None => TypeError
                      end
    /\ (forall version : string,
          recorded = VJson (JStr version) ->
          result r = Thrown (AssertionError (version ++ " must equal " ++ beforeVersion)))
    /\ (recorded = VUndefined ->
        result r = Thrown (AssertionError ("undefined must equal " ++ beforeVersion)))
    /\ final_event (trace r)
       = Some (Event (Fs_readFileSync (Path_resolve node inputPath "package.json") "utf8")
                     (inr text))
    /\ never is_create_branch (trace r) = true
    /\ never is_file_write (trace r) = true
    /\ never is_commit (trace r) = true
    /\ never is_push (trace r) = true
    /\ never is_pull_request (trace r) = true.
Proof.
  intros Hr text pkg recorded Hread Hparse Hget Hdiffers.
  assert (Hall : forall recorded',
             dependencies_get node pkg packageName = Some recorded' ->
             strict_equals_string recorded' beforeVersion = false).
  { intros recorded' Hget'. rewrite Hget in Hget'. injection Hget' as <-. exact Hdiffers. }
  pose proof (version_check_outcome lib node env inputPath packageName beforeVersion
                afterVersion w r Hr text pkg Hread Hparse Hall) as Hout.
  rewrite Hget in Hout. destruct Hout as (Hresult & Hrest).
  split; [exact Hresult|].
  split; [intros version ->; exact Hresult|].
  split; [intros ->; exact Hresult | exact Hrest].
Qed.

Lemma version_mismatch_aborts_before_branch_witness :
  result Example.mismatch = Thrown (AssertionError "1.0.0 must equal 0.9.0")
  /\ never is_create_branch (trace Example.mismatch) = true.
Proof.
  assert (Hread : manifest_read (trace Example.mismatch)
                  = Some (JSON.stringify Memory.manifest 2 ++ JSON.newline))
    by (vm_compute; reflexivity).
  assert (Hparse : JSON_parse Example.node (JSON.stringify Memory.manifest 2 ++ JSON.newline)
                   = Some Memory.manifest)
    by (vm_compute; reflexivity).
  assert (Hget : dependencies_get Example.node Memory.manifest "left-pad"
                 = Some (VJson (JStr "1.0.0")))
    by (vm_compute; reflexivity).
  assert (Hdiffers : strict_equals_string (VJson (JStr "1.0.0")) "0.9.0" = false)
    by (vm_compute; reflexivity).
  destruct (version_mismatch_aborts_before_branch
              Memory.lib Example.node Memory.credentials
              "/repo" "left-pad" "0.9.0" "^1.2.0" (Memory.clean Memory.manifest) _
              (or_introl eq_refl) _ _ _ Hread Hparse Hget Hdiffers)
    as (Hresult & _ & _ & _ & Hbranch & _).
  split; [exact Hresult | exact Hbranch].
Defined.

(** C10 (as the code has it).  Only [dependencies] is consulted.  In a run
    that read a manifest in which the package is absent from [dependencies]
    (whatever [devDependencies] or any other field says), the script throws,
    for every [beforeVersion], and reading the manifest was the last thing it
    did: no branch was created.  When the manifest has no [dependencies] at
    all, reading the entry throws a [TypeError] and nothing is compared.
    When [dependencies] is an object without the entry, [beforeVersion] is
    compared with what the object inherits under that name, which is never a
    string: [undefined], unless the package is called like a member of
    [Object.prototype]; the assertion error says [<that value> must equal
    <beforeVersion>]. *)
Theorem absent_dependency_aborts_before_branch
  {W : Type} (lib : collaborator W) (node : Runtime) (env : Environment)
  (inputPath packageName beforeVersion afterVersion : string) (w : W)
  (r : run value W) :
  r = exec lib (bump node env inputPath packageName beforeVersion afterVersion) w
  \/ r = exec lib (Draft.bump node env inputPath packageName beforeVersion afterVersion) w ->
  forall (text : string) (pkg : json),
    manifest_read (trace r) = Some text ->
    JSON_parse node text = Some pkg ->
    lacks_dependency pkg packageName = true ->
    (exists e, result r = Thrown e)
    /\ final_event (trace r)
       = Some (Event (Fs_readFileSync (Path_resolve node inputPath "package.json") "utf8")
                     (inr text))
    /\ never is_create_branch (trace r) = true
    /\ never is_file_write (trace r) = true
    /\ never is_commit (trace r) = true
    /\ never is_push (trace r) = true
    /\ never is_pull_request (trace r) = true
    /\ (forall fields,
          pkg = JObj fields ->
          JsObject.own "dependencies" fields = None ->
          dependencies_get node pkg packageName = None
          /\ result r = Thrown TypeError)
    /\ (forall fields dependencies,
          pkg = JObj fields ->
          JsObject.own "dependencies" fields = Some (JObj dependencies) ->
          dependencies_get node pkg packageName = Some (JsObject.inherited packageName)
          /\ strict_equals_string (JsObject.inherited packageName) beforeVersion = false
          /\ exists shown,
               ToString (JsObject.inherited packageName) = Some shown
               /\ (JsObject.inherited packageName = VUndefined -> shown = "undefined")
               /\ result r = Thrown (AssertionError (shown ++ " must equal " ++ beforeVersion))).
Proof.
  intros Hr text pkg Hread Hparse Hlacks.
  destruct (lacks_dependency_cases node pkg packageName Hlacks)
    as (fields & -> & Hcases).
  assert (Hall : forall recorded,
             dependencies_get node (JObj fields) packageName = Some recorded ->
             strict_equals_string recorded beforeVersion = false).
  { intros recorded Hget.
    destruct Hcases as [(_ & Hnone) | (dependencies & _ & _ & Hsome)].
    - rewrite Hnone in Hget. discriminate.
    - rewrite Hsome in Hget. injection Hget as <-. apply inherited_is_no_string. }
  destruct (version_check_outcome lib node env inputPath packageName beforeVersion
              afterVersion w r Hr text (JObj fields) Hread Hparse Hall)
    as (Hresult & Hfinal & Hnever).
  split; [eexists; exact Hresult|].
  split; [exact Hfinal|].
  do 5 (split; [apply Hnever|]).
  split.
  - intros fields' Heq Hnone. injection Heq as <-.
    destruct Hcases as [(_ & Hget) | (dependencies & Hsome & _)];
      [|rewrite Hsome in Hnone; discriminate].
    rewrite Hget in Hresult. split; assumption.
  - intros fields' dependencies Heq Hsome. injection Heq as <-.
    destruct Hcases as [(Hnone & _) | (dependencies' & _ & _ & Hget)];
      [rewrite Hnone in Hsome; discriminate|].
    split; [exact Hget|].
    split; [apply inherited_is_no_string|].
    destruct (inherited_is_shown packageName) as (shown & Hshown & Hundefined).
    exists shown. split; [exact Hshown|]. split; [exact Hundefined|].
    rewrite Hget, Hshown in Hresult. exact Hresult.
Qed.

Lemma absent_dependency_aborts_before_branch_witness :
  lacks_dependency Memory.other_manifest "left-pad" = true
  /\ result Example.not_listed = Thrown (AssertionError "undefined must equal 1.0.0")
  /\ never is_create_branch (trace Example.not_listed) = true.
Proof.
  assert (Hread : manifest_read (trace Example.not_listed)
                  = Some (JSON.stringify Memory.other_manifest 2 ++ JSON.newline))
    by (vm_compute; reflexivity).
  assert (Hparse : JSON_parse Example.node
                     (JSON.stringify Memory.other_manifest 2 ++ JSON.newline)
                   = Some Memory.other_manifest)
    by (vm_compute; reflexivity).
  assert (Hlacks : lacks_dependency Memory.other_manifest "left-pad" = true)
    by (vm_compute; reflexivity).
  destruct (absent_dependency_aborts_before_branch
              Memory.lib Example.node Memory.credentials
              "/repo" "left-pad" "1.0.0" "^1.2.0" (Memory.clean Memory.other_manifest) _
              (or_introl eq_refl) _ _ Hread Hparse Hlacks)
    as (_ & _ & Hbranch & _ & _ & _ & _ & _ & Hobject).
  split; [exact Hlacks|]. split; [|exact Hbranch].
  destruct (Hobject _ [("hoek", JStr "5.0.3")] eq_refl eq_refl)
    as (_ & _ & shown & _ & Hundefined & Hresult).
  rewrite (Hundefined eq_refl) in Hresult. exact Hresult.
Defined.

(** C10 as worded fails: with the package absent from [dependencies], the
    version check does not always compare [beforeVersion] with [undefined].
    In a manifest that only has [devDependencies], reading the entry throws
    a [TypeError] and no comparison is made; and a package called
    [constructor] is compared with the function every object inherits. *)
Lemma absent_dependency_is_compared_with_undefined_counterexample :
  (lacks_dependency Memory.dev_manifest "left-pad" = true
   /\ dependencies_get Example.node Memory.dev_manifest "left-pad" <> Some VUndefined
   /\ result Example.development_only = Thrown TypeError)
  /\ (lacks_dependency Memory.manifest "constructor" = true
      /\ dependencies_get Example.node Memory.manifest "constructor"
         = Some (VFunction "Object")
      /\ result Example.inherited_name
         = Thrown (AssertionError
                     "function Object() { [native code] } must equal 1.0.0")).
Proof.
  repeat split; try (vm_compute; reflexivity); vm_compute; discriminate.
Qed.

(* ===================================================================== *)
(** * What a successful run leaves behind *)

(** C1.  In a successful run on a manifest whose [dependencies] is an object,
    that object recorded exactly [beforeVersion] for the package, and the
    script wrote one file, once: the manifest, serialised with two spaces of
    indentation and a final newline, in which the entry of the package is
    [afterVersion], every other entry of [dependencies] and every other
    field of the manifest has the value it had, and the fields and the
    entries come in the order they had. *)
Theorem successful_run_changes_one_entry
  {W : Type} (lib : collaborator W) (node : Runtime) (env : Environment)
  (inputPath packageName beforeVersion afterVersion : string) (w : W)
  (r : run value W) :
  r = exec lib (bump node env inputPath packageName beforeVersion afterVersion) w
  \/ r = exec lib (Draft.bump node env inputPath packageName beforeVersion afterVersion) w ->
  forall (returned : value) (text : string) (fields dependencies : list (string * json)),
    result r = Returned returned ->
    manifest_read (trace r) = Some text ->
    JSON_parse node text = Some (JObj fields) ->
    JsObject.own "dependencies" fields = Some (JObj dependencies) ->
    reported_clean (trace r) = true
    /\ JsObject.own packageName dependencies = Some (JStr beforeVersion)
    /\ exists fields' dependencies',
         writes (trace r)
         = [(Path_resolve node inputPath "package.json",
             JSON.stringify (JObj fields') 2 ++ JSON.newline)]
         /\ JsObject.own "dependencies" fields' = Some (JObj dependencies')
         /\ JsObject.own packageName dependencies' = Some (JStr afterVersion)
         /\ (forall other, other <> packageName ->
               JsObject.own other dependencies' = JsObject.own other dependencies)
         /\ (forall other, other <> "dependencies" ->
               JsObject.own other fields' = JsObject.own other fields)
         /\ List.map fst fields' = List.map fst fields
         /\ List.map fst dependencies' = List.map fst dependencies.
Proof.
  intros Hr; destruct Hr as [Hr|Hr]; unfold_script Hr;
    follow lib Hr
      ltac:(finished Hr; observe;
            intros returned text fields dependencies Hresult Hread Hparse Hdeps;
            try discriminate; injection Hread as <-; agree;
            solve [ match goal with
                    | Hget : dependencies_get _ _ _ = Some _,
                      Hexpected : strict_equals_string _ _ = true,
                      Hset : dependencies_set _ _ _ _ = Some _ |- _ =>
                        destruct (dependencies_set_frame _ _ _ _ _ _ _ _
                                    Hdeps Hget Hexpected Hset)
                          as (Hown & fields' & dependencies' & -> & Hframe)
                    end;
                    split; [reflexivity|]; split; [exact Hown|];
                    exists fields', dependencies';
                    split; [reflexivity | exact Hframe] ]).
Qed.

Lemma successful_run_changes_one_entry_witness :
  JsObject.own "left-pad" [("left-pad", JStr "1.0.0"); ("hoek", JStr "5.0.3")]
  = Some (JStr "1.0.0")
  /\ exists fields' dependencies',
       writes (trace Example.end_to_end)
       = [("/repo/package.json", JSON.stringify (JObj fields') 2 ++ JSON.newline)]
       /\ JsObject.own "dependencies" fields' = Some (JObj dependencies')
       /\ JsObject.own "left-pad" dependencies' = Some (JStr "^1.2.0")
       /\ JsObject.own "hoek" dependencies' = Some (JStr "5.0.3")
       /\ JsObject.own "devDependencies" fields' = Some (JObj [("lab", JStr "15.0.0")]).
Proof.
  unfold Example.end_to_end.
  assert (Hresult : result (exec Memory.lib
                              (bump Example.node Memory.credentials
                                    "/repo" "left-pad" "1.0.0" "^1.2.0")
                              (Memory.clean Memory.manifest))
                    = Returned VUndefined)
    by (vm_compute; reflexivity).
  assert (Hread : manifest_read (trace (exec Memory.lib
                                          (bump Example.node Memory.credentials
                                                "/repo" "left-pad" "1.0.0" "^1.2.0")
                                          (Memory.clean Memory.manifest)))
                  = Some (JSON.stringify Memory.manifest 2 ++ JSON.newline))
    by (vm_compute; reflexivity).
  assert (Hparse : JSON_parse Example.node (JSON.stringify Memory.manifest 2 ++ JSON.newline)
                   = Some Memory.manifest)
    by (vm_compute; reflexivity).
  destruct (successful_run_changes_one_entry
              Memory.lib Example.node Memory.credentials
              "/repo" "left-pad" "1.0.0" "^1.2.0" (Memory.clean Memory.manifest) _
              (or_introl eq_refl) _ _ _ _ Hresult Hread Hparse eq_refl)
    as (_ & Hown & fields' & dependencies' & Hwrites & Hdeps & Hentry
        & Hothers & Hfields & _).
  split; [exact Hown|].
  exists fields', dependencies'.
  split; [exact Hwrites|]. split; [exact Hdeps|]. split; [exact Hentry|].
  split.
  - rewrite Hothers by discriminate. reflexivity.
  - rewrite Hfields by discriminate. reflexivity.
Defined.

(* ===================================================================== *)
(** * A failed push *)



(* ===================================================================== *)
(** * The pull request *)

(** C7.  In a successful run the script asked for exactly one pull request,
    and the hosting service created it: its head is the branch
    [bump-<name>-v<version>], its base is [master], the branch the run
    started from, and its title is [[Technical] Bump <name> to v<version>]. *)
Theorem successful_run_requests_the_pull_request
  {W : Type} (lib : collaborator W) (node : Runtime) (env : Environment)
  (inputPath packageName beforeVersion afterVersion : string) (w : W)
  (r : run value W) :
  r = exec lib (bump node env inputPath packageName beforeVersion afterVersion) w ->
  forall returned : value,
    result r = Returned returned ->
    List.map pr_head (requested (trace r)) = [branchName packageName afterVersion]
    /\ List.map pr_base (requested (trace r)) = ["master"]
    /\ List.map pr_title (requested (trace r))
       = ["[Technical] " ++ commitMessage packageName afterVersion]
    /\ did is_pull_request (trace r) = true
    /\ List.hd_error (checked_out (trace r)) = Some "master"
    /\ branches_created (trace r) = [branchName packageName afterVersion]
    /\ committed (trace r) = [commitMessage packageName afterVersion].
Proof.
  intros Hr; unfold_script Hr;
    follow lib Hr
      ltac:(finished Hr; observe;
            cbn [List.hd_error pr_head pr_base pr_title];
            intros returned Hresult; try discriminate;
            repeat split; reflexivity).
Qed.

Lemma successful_run_requests_the_pull_request_witness :
  result Example.end_to_end = Returned VUndefined
  /\ List.map pr_head (requested (trace Example.end_to_end)) = ["bump-left-pad-v1.2.0"]
  /\ List.map pr_base (requested (trace Example.end_to_end)) = ["master"]
  /\ List.map pr_title (requested (trace Example.end_to_end))
     = ["[Technical] Bump left-pad to v1.2.0"].
Proof.
  unfold Example.end_to_end.
  assert (Hresult : result (exec Memory.lib
                              (bump Example.node Memory.credentials
                                    "/repo" "left-pad" "1.0.0" "^1.2.0")
                              (Memory.clean Memory.manifest))
                    = Returned VUndefined)
    by (vm_compute; reflexivity).
  destruct (successful_run_requests_the_pull_request
              Memory.lib Example.node Memory.credentials
              "/repo" "left-pad" "1.0.0" "^1.2.0" (Memory.clean Memory.manifest) _
              eq_refl _ Hresult)
    as (Hhead & Hbase & Htitle & _).
  split; [exact Hresult|]. split; [rewrite Hhead; reflexivity|].
  split; [exact Hbase | rewrite Htitle; reflexivity].
Defined.

(** C9 (as the code has it).  In a successful run the hosting service
    answered the request with the URL of the pull request it created,
    [createPR] returned that URL, and the last thing the script did was to
    print it on standard output.  [bump] itself returns nothing: its promise
    resolves to [undefined]. *)
Theorem successful_run_prints_the_pull_request_url
  {W : Type} (lib : collaborator W) (node : Runtime) (env : Environment)
  (inputPath packageName beforeVersion afterVersion : string) (w : W)
  (r : run value W) :
  r = exec lib (bump node env inputPath packageName beforeVersion afterVersion) w ->
  forall returned : value,
    result r = Returned returned ->
    returned = VUndefined
    /\ exists pull_request_url : string,
         created (trace r) = Some pull_request_url
         /\ option_map called (final_event (trace r))
            = Some (console_log pull_request_url)
         /\ List.last (printed (trace r)) "" = pull_request_url
         /\ forallb succeeded (trace r) = true.
Proof.
  intros Hr; unfold_script Hr;
    follow lib Hr
      ltac:(finished Hr; observe; cbn [option_map];
            intros returned Hresult;
            first [ discriminate
                  | injection Hresult as <-;
                    split; [reflexivity|]; eexists; repeat split; reflexivity ]).
Qed.

Lemma successful_run_prints_the_pull_request_url_witness :
  result Example.end_to_end = Returned VUndefined
  /\ exists pull_request_url : string,
       created (trace Example.end_to_end) = Some pull_request_url
       /\ List.last (printed (trace Example.end_to_end)) "" = pull_request_url.
Proof.
  unfold Example.end_to_end.
  assert (Hresult : result (exec Memory.lib
                              (bump Example.node Memory.credentials
                                    "/repo" "left-pad" "1.0.0" "^1.2.0")
                              (Memory.clean Memory.manifest))
                    = Returned VUndefined)
    by (vm_compute; reflexivity).
  destruct (successful_run_prints_the_pull_request_url
              Memory.lib Example.node Memory.credentials
              "/repo" "left-pad" "1.0.0" "^1.2.0" (Memory.clean Memory.manifest) _
              eq_refl _ Hresult)
    as (_ & pull_request_url & Hcreated & _ & Hprinted & _).
  split; [exact Hresult|].
  exists pull_request_url. split; assumption.
Defined.

(** C9 as worded fails: the run that created the pull request
    [https://api.github.com/repos/lerouxb/pmg/pulls/1] did not return that
    URL; it returned [undefined]. *)
Lemma run_returns_the_pull_request_url_counterexample :
  created (trace Example.end_to_end)
  = Some "https://api.github.com/repos/lerouxb/pmg/pulls/1"
  /\ result Example.end_to_end = Returned VUndefined
  /\ result Example.end_to_end
     <> Returned (VJson (JStr "https://api.github.com/repos/lerouxb/pmg/pulls/1")).
Proof.
  repeat split; try (vm_compute; reflexivity). vm_compute. discriminate.
Qed.

(* ===================================================================== *)
(** * The end-to-end scenario

    [left-pad] goes from [1.0.0] to [^1.2.0] in [/repo]: the branch, the
    commit, the manifest on disk, the pull request and what was printed. *)

Example end_to_end_scenario :
  result Example.end_to_end = Returned VUndefined
  /\ Memory.branches (world Example.end_to_end) = ["master"; "bump-left-pad-v1.2.0"]
  /\ Memory.HEAD (world Example.end_to_end) = "bump-left-pad-v1.2.0"
  /\ Memory.commits (world Example.end_to_end)
     = [("bump-left-pad-v1.2.0", "Bump left-pad to v1.2.0"); ("master", "Initial commit")]
  /\ Memory.pushed (world Example.end_to_end)
     = ["refs/heads/bump-left-pad-v1.2.0:refs/heads/bump-left-pad-v1.2.0"]
  /\ Memory.read "/repo/package.json" (Memory.files (world Example.end_to_end))
     = Some (JSON.stringify
               (JObj [("name", JStr "app");
                      ("version", JStr "0.1.0");
                      ("dependencies",
                       JObj [("left-pad", JStr "^1.2.0"); ("hoek", JStr "5.0.3")]);
                      ("devDependencies", JObj [("lab", JStr "15.0.0")])]) 2
             ++ JSON.newline)
  /\ Memory.pull_requests (world Example.end_to_end)
     = [{| pr_owner := Some "lerouxb";
           pr_repo := Some "pmg";
           pr_head := "bump-left-pad-v1.2.0";
           pr_base := "master";
           pr_title := "[Technical] Bump left-pad to v1.2.0" |}]
  /\ Memory.stdout (world Example.end_to_end)
     = ["Pushed bump-left-pad-v1.2.0 to lerouxb/pmg";
        "https://api.github.com/repos/lerouxb/pmg/pulls/1"].
Proof. repeat split; vm_compute; reflexivity. Qed.

(** The draft stops after the push. *)
Example end_to_end_scenario_of_the_draft :
  result Example.end_to_end_draft = Returned VUndefined
  /\ Memory.commits (world Example.end_to_end_draft)
     = [("bump-left-pad-v1.2.0", "Bump left-pad to v1.2.0"); ("master", "Initial commit")]
  /\ Memory.pushed (world Example.end_to_end_draft)
     = ["refs/heads/bump-left-pad-v1.2.0:refs/heads/bump-left-pad-v1.2.0"]
  /\ Memory.pull_requests (world Example.end_to_end_draft) = []
  /\ Memory.stdout (world Example.end_to_end_draft) = ["Pushed bump-left-pad-v1.2.0"].
Proof. repeat split; vm_compute; reflexivity. Qed.

(** How the manifest of the scenario is laid out on disk. *)
Example manifest_layout :
  JSON.stringify (JObj [("name", JStr "app");
                        ("dependencies", JObj [("left-pad", JStr "^1.2.0")]);
                        ("files", JArr []);
                        ("private", JBool true)]) 2
  = JSON.join JSON.newline
      ["{";
       "  " ++ JSON.quote "name" ++ ": " ++ JSON.quote "app" ++ ",";
       "  " ++ JSON.quote "dependencies" ++ ": {";
       "    " ++ JSON.quote "left-pad" ++ ": " ++ JSON.quote "^1.2.0";
       "  },";
       "  " ++ JSON.quote "files" ++ ": [],";
       "  " ++ JSON.quote "private" ++ ": true";
       "}"].
Proof. vm_compute. reflexivity. Qed.

(* ===================================================================== *)
(** * Further properties of the script *)

Ltac observe_more :=
  cbn [steps List.map label failures staged staging remote_url_seen base_urls
       authentications git_options_used branch_requests checkout_requests
       merge_requests push_requests files_read commit_requests heads_seen branch_points
       commit_parents List.firstn List.skipn
       is_fetch is_merge is_stage is_hosting host owner name List.hd_error
       pr_owner pr_repo pr_head pr_base pr_title fst snd].


Lemma trace_following {A W : Type} (ev : event) (rest : run A W) :
  trace (following ev rest) = ev :: trace rest.
Proof. destruct rest; reflexivity. Qed.

(* ===================================================================== *)
(** * The remote of the repository: [internals.getRepoInfo] *)

Lemma append_associative (a b c : string) : (a ++ b) ++ c = a ++ b ++ c.
Proof. induction a as [|x a IH]; simpl; [reflexivity | rewrite IH; reflexivity]. Qed.


Lemma split_without_separator (sep : ascii) (s : string) :
  JsString.mem sep s = false -> JsString.split sep s = [s].
Proof.
  induction s as [|c s IH]; simpl; [reflexivity|].
  intros H. apply orb_false_elim in H. destruct H as [Hc Hs].
  rewrite Hc, (IH Hs). reflexivity.
Qed.

Lemma split_at_separator (sep : ascii) (a b : string) :
  JsString.mem sep a = false ->
  JsString.split sep (a ++ String sep b) = a :: JsString.split sep b.
Proof.
  induction a as [|c a IH]; simpl.
  - intros _. rewrite Ascii.eqb_refl. reflexivity.
  - intros H. apply orb_false_elim in H. destruct H as [Hc Ha].
    rewrite Hc, (IH Ha). reflexivity.
Qed.

Lemma mem_append (c : ascii) (a b : string) :
  JsString.mem c (a ++ b) = JsString.mem c a || JsString.mem c b.
Proof.
  induction a as [|x a IH]; simpl; [reflexivity|].
  rewrite IH, orb_assoc. reflexivity.
Qed.


Lemma prefix_empty (s : string) : prefix "" s = true.
Proof. destruct s; reflexivity. Qed.

(** [.git] is replaced where it first occurs. *)
Lemma replace_first_git (a b : string) :
  occurs ".git" a = false ->
  JsString.replace (a ++ ".git" ++ b) ".git" "" = a ++ b.
Proof.
  induction a as [|c a IH].
  - intros _. cbn. rewrite prefix_empty. reflexivity.
  - intros H. cbn [occurs] in H. apply orb_false_elim in H. destruct H as [Hp Ha].
    assert (Hfalse : prefix ".git" (String c (a ++ ".git" ++ b)) = false).
    2: { change (String c a ++ ".git" ++ b) with (String c (a ++ ".git" ++ b)).
         cbn [JsString.replace]. rewrite Hfalse, (IH Ha). reflexivity. }
    + clear IH Ha. revert Hp. cbn [prefix].
      destruct (ascii_dec "." c); [|reflexivity].
      destruct a as [|c1 a]; [reflexivity|]. cbn [append prefix].
      destruct (ascii_dec "g" c1); [|reflexivity].
      destruct a as [|c2 a]; [reflexivity|]. cbn [append prefix].
      destruct (ascii_dec "i" c2); [|reflexivity].
      destruct a as [|c3 a]; [reflexivity|]. cbn [append prefix].
      destruct (ascii_dec "t" c3); [|reflexivity].
      rewrite !prefix_empty. intros H. discriminate H.
Qed.

Lemma owner_and_name_of_path (o n1 n2 : string) :
  JsString.mem "/" o = false ->
  JsString.mem "/" (n1 ++ n2) = false ->
  occurs ".git" (o ++ "/" ++ n1) = false ->
  JsString.split "/"
    (JsString.replace (JsString.slice 1 ("/" ++ o ++ "/" ++ n1 ++ ".git" ++ n2)) ".git" "")
  = [o; n1 ++ n2].
Proof.
  intros Ho Hn Hgit.
  change (JsString.slice 1 ("/" ++ o ++ "/" ++ n1 ++ ".git" ++ n2))
    with (o ++ "/" ++ n1 ++ ".git" ++ n2).
  replace (o ++ "/" ++ n1 ++ ".git" ++ n2) with ((o ++ "/" ++ n1) ++ ".git" ++ n2)
    by (rewrite !append_associative; reflexivity).
  rewrite (replace_first_git _ _ Hgit).
  rewrite !append_associative.
  change (o ++ "/" ++ n1 ++ n2) with (o ++ String "/" (n1 ++ n2)).
  rewrite (split_at_separator _ _ _ Ho), (split_without_separator _ _ Hn).
  reflexivity.
Qed.




(** X2.  [getRepoInfo] removes [.git] where it first occurs in the path, not
    at its end.  For a path [/<owner>/<n1>.git<n2>] (no [/] in the parts, no
    earlier [.git]) the owner is right and the name reported is [<n1><n2>]:
    the repository [user.github.io], at [/user/user.github.io.git], is
    reported as [userhub.io.git]. *)
Theorem getRepoInfo_removes_the_first_git
  {W : Type} (lib : collaborator W) (node : Runtime) (inputPath : string) (w : W)
  (r : run RepoInfo W) :
  r = exec lib (getRepoInfo node inputPath) w ->
  forall (info : RepoInfo) (remote_url o n1 n2 : string),
    result r = Returned info ->
    remote_url_seen (trace r) = Some remote_url ->
    pathname (Url_parse node remote_url) = Some ("/" ++ o ++ "/" ++ n1 ++ ".git" ++ n2) ->
    JsString.mem "/" o = false ->
    JsString.mem "/" (n1 ++ n2) = false ->
    occurs ".git" (o ++ "/" ++ n1) = false ->
    owner info = Some o /\ name info = Some (n1 ++ n2).
Proof.
  intros Hr; unfold getRepoInfo, lookupRemote in Hr;
    follow lib Hr
      ltac:(finished Hr; observe; observe_more;
            intros info remote_url o n1 n2 Hresult Hseen Hpath Ho Hn Hgit;
            try discriminate;
            injection Hresult as <-; injection Hseen as <-; observe_more).
  rewrite Hpath in *.
  match goal with H : Some _ = Some _ |- _ => injection H as <- end.
  pose proof (owner_and_name_of_path o n1 n2 Ho Hn Hgit) as Hparts.
  assert (H : nth_error
                (JsString.split "/"
                   (JsString.replace
                      (JsString.slice 1 ("/" ++ o ++ "/" ++ n1 ++ ".git" ++ n2))
                      ".git" "")) 0 = Some o
              /\ nth_error
                   (JsString.split "/"
                      (JsString.replace
                         (JsString.slice 1 ("/" ++ o ++ "/" ++ n1 ++ ".git" ++ n2))
                         ".git" "")) 1 = Some (n1 ++ n2))
    by (rewrite Hparts; split; reflexivity).
  exact H.
Qed.

Lemma getRepoInfo_removes_the_first_git_witness :
  exists info : RepoInfo,
    result (exec Memory.lib (getRepoInfo Example.node "/repo") Scenario.pages)
    = Returned info
    /\ owner info = Some "lerouxb"
    /\ name info = Some "lerouxbhub.io.git".
Proof.
  eexists. split; [vm_compute; reflexivity|].
  apply (getRepoInfo_removes_the_first_git
           Memory.lib Example.node "/repo" Scenario.pages _ eq_refl _
           "https://git.example.com/lerouxb/lerouxb.github.io.git"
           "lerouxb" "lerouxb" "hub.io.git");
    vm_compute; reflexivity.
Defined.

(** X3.  When [Url.parse] finds no path in the URL of [origin], [bump] throws
    a [TypeError] out of [getRepoInfo]: it has opened the repository, looked
    up the remote and asked its URL, and nothing else; the status of the
    working copy has not even been queried. *)
Theorem bump_needs_a_path_in_the_remote_url
  {W : Type} (lib : collaborator W) (node : Runtime) (env : Environment)
  (inputPath packageName beforeVersion afterVersion : string) (w : W)
  (r : run value W) :
  r = exec lib (bump node env inputPath packageName beforeVersion afterVersion) w ->
  forall remote_url : string,
    remote_url_seen (trace r) = Some remote_url ->
    pathname (Url_parse node remote_url) = None ->
    result r = Thrown TypeError
    /\ steps (trace r) = remote_steps
    /\ forallb succeeded (trace r) = true
    /\ status_seen (trace r) = None.
Proof.
  intros Hr; unfold_script Hr;
    follow lib Hr
      ltac:(finished Hr; observe; observe_more;
            intros remote_url Hseen Hpath; try discriminate;
            injection Hseen as <-; agree;
            repeat split; reflexivity).
Qed.

Lemma bump_needs_a_path_in_the_remote_url_witness :
  result (exec Memory.lib
            (bump Scenario.node_without_path Memory.credentials
                  "/repo" "left-pad" "1.0.0" "^1.2.0")
            (Memory.clean Memory.manifest))
  = Thrown TypeError.
Proof.
  apply (bump_needs_a_path_in_the_remote_url
           Memory.lib Scenario.node_without_path Memory.credentials
           "/repo" "left-pad" "1.0.0" "^1.2.0" (Memory.clean Memory.manifest) _ eq_refl
           "https://github.com/lerouxb/pmg.git");
    vm_compute; reflexivity.
Defined.

(* ===================================================================== *)
(** * Staging and committing: [internals.commitPaths] *)

(** A run of [m] followed by [f]: the run of [m], and if it returned, the
    run of [f] on what it returned. *)
Lemma exec_bind {W A B : Type} (lib : collaborator W) (m : prog A) (f : A -> prog B)
      (w : W) :
  exec lib (bind m f) w
  = match result (exec lib m w) with
    | Returned a =>
        Run (result (exec lib (f a) (world (exec lib m w))))
            (trace (exec lib m w) ++ trace (exec lib (f a) (world (exec lib m w))))%list
            (world (exec lib (f a) (world (exec lib m w))))
    | Thrown e => Run (Thrown e) (trace (exec lib m w)) (world (exec lib m w))
    end.
Proof.
  revert w. induction m as [a|e|c k IH]; intros w; cbn [bind exec result trace world].
  - destruct (exec lib (f a) w); reflexivity.
  - reflexivity.
  - destruct (lib c w) as [[e|a] w']; [reflexivity|].
    rewrite IH. destruct (exec lib (k a) w') as [[b|e] t w'']; reflexivity.
Qed.

Lemma staged_app (a b : list event) : staged (a ++ b) = (staged a ++ staged b)%list.
Proof.
  induction a as [|[c [e|x]] a IH]; cbn [staged List.app]; [reflexivity| |];
    destruct c; cbn [List.app]; rewrite ?IH; reflexivity.
Qed.

Lemma staged_staging_events (index : Index) (paths : list string) :
  staged (staging_events index paths) = paths.
Proof. induction paths as [|p paths IH]; simpl; [reflexivity | rewrite IH; reflexivity]. Qed.

Lemma succeeded_staging_events (index : Index) (paths : list string) :
  forallb succeeded (staging_events index paths) = true.
Proof. induction paths as [|p paths IH]; simpl; [reflexivity | exact IH]. Qed.

Lemma failures_staging_events (index : Index) (paths : list string) :
  failures (staging_events index paths) = [].
Proof. induction paths as [|p paths IH]; simpl; [reflexivity | exact IH]. Qed.

Lemma failures_app (a b : list event) : failures (a ++ b) = (failures a ++ failures b)%list.
Proof.
  induction a as [|[c [e|x]] a IH]; cbn [failures List.app]; rewrite ?IH; reflexivity.
Qed.

(** Staging commits nothing and writes neither index nor tree. *)
Lemma staging_events_only_stage (index : Index) (paths : list string) (after : list event) :
  committed (staging_events index paths ++ after) = committed after
  /\ commit_requests (staging_events index paths ++ after) = commit_requests after
  /\ never is_index_write (staging_events index paths ++ after)
     = never is_index_write after.
Proof.
  induction paths as [|p paths IH]; simpl; [repeat split; reflexivity | exact IH].
Qed.

(** The loop of [commitPaths]: the paths are staged in order, up to the
    first that fails. *)
Lemma addPaths_run {W : Type} (lib : collaborator W) (index : Index)
      (paths : list string) (w : W) :
  (result (exec lib (addPaths index paths) w) = Returned tt
   /\ trace (exec lib (addPaths index paths) w) = staging_events index paths)
  \/ (exists (e : error) (done : list string) (path : string) (rest : list string),
        paths = (done ++ path :: rest)%list
        /\ result (exec lib (addPaths index paths) w) = Thrown e
        /\ trace (exec lib (addPaths index paths) w)
           = (staging_events index done ++ [Event (Index_addByPath index path) (inl e)])%list).
Proof.
  revert w. induction paths as [|p paths IH]; intros w.
  - left. split; reflexivity.
  - cbn [addPaths bind perform exec].
    destruct (lib (Index_addByPath index p) w) as [[e|[]] w'].
    + right. exists e, [], p, paths. repeat split; reflexivity.
    + destruct (IH w') as [(Hresult & Htrace) | (e & done & path & rest & -> & Hresult & Htrace)].
      * left. destruct (exec lib (addPaths index paths) w') as [res t w''].
        cbn [result trace] in *. subst. split; reflexivity.
      * right. exists e, (p :: done), path, rest.
        destruct (exec lib (addPaths index (done ++ path :: rest)) w') as [res t w''].
        cbn [result trace] in *. subst. repeat split; reflexivity.
Qed.

(** Every way a run of [commitPaths] can go. *)
Lemma commitPaths_cases {W : Type} (lib : collaborator W) (inputPath : string)
      (paths : list string) (message : string) (w : W) :
  (exists (repo : Repository) (signature : Signature) (index : Index) (tree : Oid)
          (head : Commit) (oid : Oid),
      result (exec lib (commitPaths inputPath paths message) w) = Returned oid
      /\ trace (exec lib (commitPaths inputPath paths message) w)
         = ([Event (Git_Repository_open inputPath) (inr repo);
             Event (Repository_defaultSignature repo) (inr signature);
             Event (Repository_refreshIndex repo) (inr index)]
            ++ staging_events index paths
            ++ [Event (Index_write index) (inr tt);
                Event (Index_writeTree index) (inr tree);
                Event (Repository_getHeadCommit repo) (inr head);
                Event (Repository_createCommit repo "HEAD" signature signature
                         message tree [head]) (inr oid)])%list)
  \/ (exists e : error,
        result (exec lib (commitPaths inputPath paths message) w) = Thrown e
        /\ committed (trace (exec lib (commitPaths inputPath paths message) w)) = []
        /\ failures (trace (exec lib (commitPaths inputPath paths message) w)) = [e]
        /\ exists done rest : list string,
             paths = (done ++ rest)%list
             /\ staged (trace (exec lib (commitPaths inputPath paths message) w)) = done
             /\ (rest <> [] ->
                 commit_requests (trace (exec lib (commitPaths inputPath paths message) w)) = []
                 /\ never is_index_write
                      (trace (exec lib (commitPaths inputPath paths message) w)) = true)).
Proof.
  unfold commitPaths. cbn [exec bind perform].
  destruct (lib (Git_Repository_open inputPath) w) as [[e|repo] w1].
  { right. exists e. repeat split; try reflexivity.
    exists [], paths. repeat split; reflexivity. }
  destruct (lib (Repository_defaultSignature repo) w1) as [[e|signature] w2].
  { right. exists e. repeat split; try reflexivity.
    exists [], paths. repeat split; reflexivity. }
  destruct (lib (Repository_refreshIndex repo) w2) as [[e|index] w3].
  { right. exists e. repeat split; try reflexivity.
    exists [], paths. repeat split; reflexivity. }
  rewrite exec_bind.
  destruct (addPaths_run lib index paths w3)
    as [(Hresult & Htrace) | (e & done & path & rest & Hpaths & Hresult & Htrace)];
    rewrite Hresult, Htrace; clear Hresult Htrace.
  - generalize (world (exec lib (addPaths index paths) w3)). intros w4.
    match goal with
    | |- context [exec lib ?p w4] => remember (exec lib p w4) as tail eqn:Htail
    end.
    pose proof (staging_events_only_stage index paths) as Honly.
    follow lib Htail
      ltac:(finished Htail; cbn [following result trace world];
            repeat match goal with u : response (Index_write _) |- _ => destruct u end;
            first [ left; exists repo, signature, index; do 3 eexists; split; reflexivity
                  | right; eexists; split; [reflexivity|];
                    cbn [committed failures staged];
                    rewrite (proj1 (Honly _)), failures_app, staged_app,
                      failures_staging_events, staged_staging_events;
                    cbn [committed failures staged List.app];
                    split; [reflexivity|]; split; [reflexivity|];
                    exists paths, []; rewrite List.app_nil_r;
                    split; [reflexivity|]; split; [reflexivity|];
                    intros Hrest; contradiction Hrest; reflexivity ]).
  - right. exists e. cbn [following result trace world].
    pose proof (staging_events_only_stage index done) as Honly.
    cbn [committed failures staged commit_requests never forallb List.app].
    rewrite !(proj1 (Honly _)), !(proj1 (proj2 (Honly _))), ?failures_app, ?staged_app,
      ?failures_staging_events, ?staged_staging_events.
    change (forallb (fun ev => negb (is_index_write (called ev)))
              (staging_events index done
               ++ [Event (Index_addByPath index path) (inl e)]))
      with (never is_index_write
              (staging_events index done
               ++ [Event (Index_addByPath index path) (inl e)])).
    rewrite (proj2 (proj2 (Honly _))).
    split; [reflexivity|]. split; [reflexivity|]. split; [reflexivity|].
    exists done, (path :: rest). rewrite List.app_nil_r.
    repeat split; try reflexivity. exact Hpaths.
Qed.

(** X4.  When [commitPaths] returns, for any list of paths, it has made
    exactly these calls, all answered without an error: open the repository,
    take its default signature, refresh the index, stage every path in the
    order given, write the index, write the tree, take the head commit, and
    create on [HEAD] a commit of that tree with the message, the default
    signature as author and as committer, and the head commit as its only
    parent. *)
Theorem commitPaths_stages_in_order_then_commits
  {W : Type} (lib : collaborator W) (inputPath : string) (paths : list string)
  (message : string) (w : W) (r : run Oid W) :
  r = exec lib (commitPaths inputPath paths message) w ->
  forall oid : Oid,
    result r = Returned oid ->
    staged (trace r) = paths
    /\ exists (repo : Repository) (signature : Signature) (index : Index) (tree : Oid)
              (head : Commit),
         trace r
         = ([Event (Git_Repository_open inputPath) (inr repo);
             Event (Repository_defaultSignature repo) (inr signature);
             Event (Repository_refreshIndex repo) (inr index)]
            ++ staging_events index paths
            ++ [Event (Index_write index) (inr tt);
                Event (Index_writeTree index) (inr tree);
                Event (Repository_getHeadCommit repo) (inr head);
                Event (Repository_createCommit repo "HEAD" signature signature
                         message tree [head]) (inr oid)])%list.
Proof.
  intros -> oid Hresult.
  destruct (commitPaths_cases lib inputPath paths message w)
    as [(repo & signature & index & tree & head & oid' & Hreturned & Htrace)
       | (e & Hthrown & _)].
  - rewrite Hreturned in Hresult. injection Hresult as ->.
    split.
    + rewrite Htrace. cbn [List.app staged].
      rewrite staged_app, staged_staging_events. cbn [staged].
      apply List.app_nil_r.
    + exists repo, signature, index, tree, head. exact Htrace.
  - rewrite Hthrown in Hresult. discriminate Hresult.
Qed.

Lemma commitPaths_stages_in_order_then_commits_witness :
  staged (trace (exec Memory.lib
                   (commitPaths "/repo" ["package.json"; "package-lock.json"] "Bump")
                   (Memory.clean Memory.manifest)))
  = ["package.json"; "package-lock.json"].
Proof.
  exact (proj1 (commitPaths_stages_in_order_then_commits
                  Memory.lib "/repo" ["package.json"; "package-lock.json"] "Bump"
                  (Memory.clean Memory.manifest) _ eq_refl 2
                  ltac:(vm_compute; reflexivity))).
Defined.

(** X5.  When [commitPaths] throws, for any list of paths, no commit was
    made and the error thrown is the error of the one call that failed.  The
    paths staged are a beginning of the list; if a path was left unstaged,
    the index and the tree were not written and no commit was asked for. *)
Theorem commitPaths_stops_at_the_first_failure
  {W : Type} (lib : collaborator W) (inputPath : string) (paths : list string)
  (message : string) (w : W) (r : run Oid W) :
  r = exec lib (commitPaths inputPath paths message) w ->
  forall e : error,
    result r = Thrown e ->
    committed (trace r) = []
    /\ failures (trace r) = [e]
    /\ exists done rest : list string,
         paths = (done ++ rest)%list
         /\ staged (trace r) = done
         /\ (rest <> [] ->
             commit_requests (trace r) = []
             /\ never is_index_write (trace r) = true).
Proof.
  intros -> e Hresult.
  destruct (commitPaths_cases lib inputPath paths message w)
    as [(repo & signature & index & tree & head & oid' & Hreturned & _)
       | (e' & Hthrown & Hrest)].
  - rewrite Hreturned in Hresult. discriminate Hresult.
  - rewrite Hthrown in Hresult. injection Hresult as ->. exact Hrest.
Qed.

Lemma commitPaths_stops_at_the_first_failure_witness :
  result (exec (Scenario.without_file "yarn.lock")
            (commitPaths "/repo" ["package.json"; "yarn.lock"; "README.md"] "Bump")
            (Memory.clean Memory.manifest))
  = Thrown (LibraryError "could not find the file")
  /\ committed (trace (exec (Scenario.without_file "yarn.lock")
                         (commitPaths "/repo" ["package.json"; "yarn.lock"; "README.md"]
                                      "Bump")
                         (Memory.clean Memory.manifest))) = [].
Proof.
  assert (Hresult : result (exec (Scenario.without_file "yarn.lock")
                              (commitPaths "/repo"
                                 ["package.json"; "yarn.lock"; "README.md"] "Bump")
                              (Memory.clean Memory.manifest))
                    = Thrown (LibraryError "could not find the file"))
    by (vm_compute; reflexivity).
  split; [exact Hresult|].
  exact (proj1 (commitPaths_stops_at_the_first_failure
                  (Scenario.without_file "yarn.lock") "/repo"
                  ["package.json"; "yarn.lock"; "README.md"] "Bump"
                  (Memory.clean Memory.manifest) _ eq_refl _ Hresult)).
Defined.

(* ===================================================================== *)
(** * The order of the calls and the first failure *)

(** X6.  Whatever the libraries answer, the calls of a run of [bump] are a
    beginning of one fixed sequence: the remote is inspected, the status is
    queried, [master] is checked out, the remotes are fetched and merged, the
    manifest is read, the branch is created and checked out, the manifest is
    written, staged and committed, the branch is pushed, and the pull
    request is made and printed.  A run that returns has made all of them.
    The same holds for the draft, whose sequence has neither the inspection
    of the remote nor the pull request. *)
Theorem runs_follow_the_script
  {W : Type} (lib : collaborator W) (node : Runtime) (env : Environment)
  (inputPath packageName beforeVersion afterVersion : string) (w : W)
  (r : run value W) :
  (r = exec lib (bump node env inputPath packageName beforeVersion afterVersion) w ->
   begins (steps (trace r)) bump_steps = true
   /\ forall returned : value,
        result r = Returned returned -> steps (trace r) = bump_steps)
  /\ (r = exec lib (Draft.bump node env inputPath packageName beforeVersion afterVersion) w ->
      begins (steps (trace r)) draft_steps = true
      /\ forall returned : value,
           result r = Returned returned -> steps (trace r) = draft_steps).
Proof.
  split; intros Hr; unfold_script Hr;
    follow lib Hr
      ltac:(finished Hr; observe; observe_more;
            split; [vm_compute; reflexivity|];
            intros returned Hresult; first [discriminate | reflexivity]).
Qed.

Lemma runs_follow_the_script_witness :
  steps (trace Example.end_to_end) = bump_steps
  /\ begins (steps (trace Example.uncommitted)) bump_steps = true.
Proof.
  unfold Example.end_to_end, Example.uncommitted.
  split.
  - apply (proj1 (runs_follow_the_script
                    Memory.lib Example.node Memory.credentials
                    "/repo" "left-pad" "1.0.0" "^1.2.0" (Memory.clean Memory.manifest) _)
                 eq_refl) with (returned := VUndefined).
    vm_compute. reflexivity.
  - apply (proj1 (runs_follow_the_script
                    Memory.lib Example.node Memory.credentials
                    "/repo" "left-pad" "1.0.0" "^1.2.0" (Memory.dirty Memory.manifest) _)
                 eq_refl).
Defined.



(* ===================================================================== *)
(** * Credentials *)

(** X8.  The credentials are checked in order and an empty string counts as
    absent.  With [GITHUB_USERNAME] undefined or empty the run throws
    [GITHUB_USERNAME required], whatever [GITHUB_PASSWORD] is; with a user
    name and [GITHUB_PASSWORD] undefined or empty it throws
    [GITHUB_PASSWORD required]; in both cases no call is made.  With both
    set, the run goes on: its first call opens the repository. *)
Theorem credentials_must_not_be_empty
  {W : Type} (lib : collaborator W) (node : Runtime) (env : Environment)
  (inputPath packageName beforeVersion afterVersion : string) (w : W)
  (r : run value W) :
  r = exec lib (bump node env inputPath packageName beforeVersion afterVersion) w
  \/ r = exec lib (Draft.bump node env inputPath packageName beforeVersion afterVersion) w ->
  (GITHUB_USERNAME env = None \/ GITHUB_USERNAME env = Some "" ->
   result r = Thrown (AssertionError "GITHUB_USERNAME required") /\ trace r = [])
  /\ (forall username : string,
        GITHUB_USERNAME env = Some username -> username <> "" ->
        GITHUB_PASSWORD env = None \/ GITHUB_PASSWORD env = Some "" ->
        result r = Thrown (AssertionError "GITHUB_PASSWORD required") /\ trace r = [])
  /\ (forall username password : string,
        GITHUB_USERNAME env = Some username -> username <> "" ->
        GITHUB_PASSWORD env = Some password -> password <> "" ->
        List.hd_error (List.map called (trace r)) = Some (Git_Repository_open inputPath)).
Proof.
  assert (Hempty : forall s, s <> "" -> truthy (Some s) = true).
  { intros s Hs. cbn. destruct (String.eqb_spec s ""); [contradiction | reflexivity]. }
  intros Hr. split; [|split].
  - intros Hu.
    assert (Hfalse : truthy (GITHUB_USERNAME env) = false)
      by (destruct Hu as [Hu|Hu]; rewrite Hu; reflexivity).
    destruct Hr as [Hr|Hr]; unfold bump, Draft.bump in Hr; rewrite Hfalse in Hr;
      cbn [exec bind Hoek_assert] in Hr; subst r; split; reflexivity.
  - intros username Hu Hne Hp.
    assert (Htrue : truthy (GITHUB_USERNAME env) = true) by (rewrite Hu; auto).
    assert (Hfalse : truthy (GITHUB_PASSWORD env) = false)
      by (destruct Hp as [Hp|Hp]; rewrite Hp; reflexivity).
    destruct Hr as [Hr|Hr]; unfold bump, Draft.bump in Hr; rewrite Htrue, Hfalse in Hr;
      cbn [exec bind Hoek_assert] in Hr; subst r; split; reflexivity.
  - intros username password Hu Hune Hp Hpne.
    assert (Htrue : truthy (GITHUB_USERNAME env) = true) by (rewrite Hu; auto).
    assert (Htrue' : truthy (GITHUB_PASSWORD env) = true) by (rewrite Hp; auto).
    destruct Hr as [Hr|Hr]; unfold_script Hr; rewrite Htrue, Htrue' in Hr;
      cbn [exec bind perform Hoek_assert] in Hr;
      destruct (lib (Git_Repository_open inputPath) w) as [[e|repo] w1];
      subst r; rewrite ?trace_following; reflexivity.
Qed.

Lemma credentials_must_not_be_empty_witness :
  result (exec Memory.lib
            (bump Example.node Scenario.empty_username "/repo" "left-pad" "1.0.0" "^1.2.0")
            (Memory.clean Memory.manifest))
  = Thrown (AssertionError "GITHUB_USERNAME required")
  /\ trace (exec Memory.lib
              (bump Example.node Scenario.empty_username "/repo" "left-pad" "1.0.0" "^1.2.0")
              (Memory.clean Memory.manifest)) = [].
Proof.
  exact (proj1 (credentials_must_not_be_empty
                  Memory.lib Example.node Scenario.empty_username
                  "/repo" "left-pad" "1.0.0" "^1.2.0" (Memory.clean Memory.manifest) _
                  (or_introl eq_refl))
               (or_intror eq_refl)).
Defined.

(** X9.  The credentials of the environment, and no others, go to git and to
    the hosting API: every [fetchAll] and every [push] is called with the
    user name and password of the environment, every [octokit.authenticate]
    with type [basic] and the same pair; and a run that made any call at all
    had both of them set and not empty. *)
Theorem credentials_reach_git_and_the_hosting_api
  {W : Type} (lib : collaborator W) (node : Runtime) (env : Environment)
  (inputPath packageName beforeVersion afterVersion : string) (w : W)
  (r : run value W) :
  r = exec lib (bump node env inputPath packageName beforeVersion afterVersion) w
  \/ r = exec lib (Draft.bump node env inputPath packageName beforeVersion afterVersion) w ->
  Forall (fun options =>
            credentials_username options = GITHUB_USERNAME env
            /\ credentials_password options = GITHUB_PASSWORD env)
         (git_options_used (trace r))
  /\ Forall (fun options =>
               options = {| auth_type := "basic";
                            auth_username := GITHUB_USERNAME env;
                            auth_password := GITHUB_PASSWORD env |})
            (authentications (trace r))
  /\ (trace r <> [] ->
      exists username password : string,
        GITHUB_USERNAME env = Some username /\ username <> ""
        /\ GITHUB_PASSWORD env = Some password /\ password <> "").
Proof.
  assert (Hset : forall o, truthy o = true -> exists s, o = Some s /\ s <> "").
  { intros [s|] H; [|discriminate]. exists s. split; [reflexivity|].
    intros ->. discriminate. }
  intros Hr; destruct Hr as [Hr|Hr]; unfold_script Hr;
    follow lib Hr
      ltac:(finished Hr; observe; observe_more;
            split; [repeat constructor|]; split; [repeat constructor|];
            intros Hcalls;
            first [ contradiction Hcalls; reflexivity
                  | match goal with
                    | Hu : truthy (GITHUB_USERNAME env) = true,
                      Hp : truthy (GITHUB_PASSWORD env) = true |- _ =>
                        destruct (Hset _ Hu) as (username & Hu' & Hune);
                        destruct (Hset _ Hp) as (password & Hp' & Hpne);
                        exists username, password; repeat split; assumption
                    end ]).
Qed.

Lemma credentials_reach_git_and_the_hosting_api_witness :
  git_options_used (trace Example.end_to_end)
  = [ {| credentials_username := Some "lerouxb"; credentials_password := Some "secret" |};
      {| credentials_username := Some "lerouxb"; credentials_password := Some "secret" |} ]
  /\ exists username password : string,
       GITHUB_USERNAME Memory.credentials = Some username /\ username <> ""
       /\ GITHUB_PASSWORD Memory.credentials = Some password /\ password <> "".
Proof.
  unfold Example.end_to_end.
  split; [vm_compute; reflexivity|].
  apply (proj2 (proj2 (credentials_reach_git_and_the_hosting_api
                         Memory.lib Example.node Memory.credentials
                         "/repo" "left-pad" "1.0.0" "^1.2.0" (Memory.clean Memory.manifest) _
                         (or_introl eq_refl)))).
  vm_compute. discriminate.
Defined.

(* ===================================================================== *)
(** * Where the pull request goes *)



(* ===================================================================== *)
(** * What the script asks of git and of the disk *)

(** X11.  Whatever the libraries answer, a run (of the script or of its
    draft) never forces anything and touches two branches only.  Every
    branch it asks to create is [bump-<name>-v<version>], with [force] off;
    every checkout is of [master] or of that branch; every merge is of
    [origin/master] into [master]; and every push has the one refspec
    [refs/heads/<branch>:refs/heads/<branch>], without the [+] that would
    force it. *)
Theorem runs_touch_master_and_the_new_branch_only
  {W : Type} (lib : collaborator W) (node : Runtime) (env : Environment)
  (inputPath packageName beforeVersion afterVersion : string) (w : W)
  (r : run value W) :
  r = exec lib (bump node env inputPath packageName beforeVersion afterVersion) w
  \/ r = exec lib (Draft.bump node env inputPath packageName beforeVersion afterVersion) w ->
  Forall (fun request => request = (branchName packageName afterVersion, false))
         (branch_requests (trace r))
  /\ Forall (fun branch => branch = "master"
                           \/ branch = branchName packageName afterVersion)
            (checkout_requests (trace r))
  /\ Forall (fun merge => merge = ("master", "origin/master")) (merge_requests (trace r))
  /\ Forall (fun refSpecs =>
               refSpecs = ["refs/heads/" ++ branchName packageName afterVersion
                           ++ ":refs/heads/" ++ branchName packageName afterVersion])
            (push_requests (trace r)).
Proof.
  intros Hr; destruct Hr as [Hr|Hr]; unfold_script Hr;
    follow lib Hr
      ltac:(finished Hr; observe; observe_more;
            repeat split; repeat constructor; solve [left; reflexivity | right; reflexivity]).
Qed.

Lemma runs_touch_master_and_the_new_branch_only_witness :
  branch_requests (trace Example.end_to_end) = [("bump-left-pad-v1.2.0", false)]
  /\ Forall (fun request => request = ("bump-left-pad-v1.2.0", false))
            (branch_requests (trace Example.end_to_end)).
Proof.
  unfold Example.end_to_end.
  split; [vm_compute; reflexivity|].
  exact (proj1 (runs_touch_master_and_the_new_branch_only
                  Memory.lib Example.node Memory.credentials
                  "/repo" "left-pad" "1.0.0" "^1.2.0" (Memory.clean Memory.manifest) _
                  (or_introl eq_refl))).
Defined.

(** X12.  Whatever the libraries answer, the only file a run (of the script
    or of its draft) reads or writes is [package.json] resolved against the
    repository path, read as [utf8], at most once each; and the only path it
    asks to stage is [package.json]. *)
Theorem runs_touch_the_manifest_only
  {W : Type} (lib : collaborator W) (node : Runtime) (env : Environment)
  (inputPath packageName beforeVersion afterVersion : string) (w : W)
  (r : run value W) :
  r = exec lib (bump node env inputPath packageName beforeVersion afterVersion) w
  \/ r = exec lib (Draft.bump node env inputPath packageName beforeVersion afterVersion) w ->
  (files_read (trace r) = []
   \/ files_read (trace r) = [(Path_resolve node inputPath "package.json", "utf8")])
  /\ (List.map fst (writes (trace r)) = []
      \/ List.map fst (writes (trace r)) = [Path_resolve node inputPath "package.json"])
  /\ (staging (trace r) = [] \/ staging (trace r) = ["package.json"]).
Proof.
  intros Hr; destruct Hr as [Hr|Hr]; unfold_script Hr;
    follow lib Hr
      ltac:(finished Hr; observe; observe_more;
            repeat split; solve [left; reflexivity | right; reflexivity]).
Qed.

Lemma runs_touch_the_manifest_only_witness :
  files_read (trace Example.end_to_end) = [("/repo/package.json", "utf8")]
  /\ (staging (trace Example.end_to_end) = []
      \/ staging (trace Example.end_to_end) = ["package.json"]).
Proof.
  unfold Example.end_to_end.
  split; [vm_compute; reflexivity|].
  exact (proj2 (proj2 (runs_touch_the_manifest_only
                         Memory.lib Example.node Memory.credentials
                         "/repo" "left-pad" "1.0.0" "^1.2.0"
                         (Memory.clean Memory.manifest) _ (or_introl eq_refl)))).
Defined.

(** X13.  The draft never goes near the hosting API: in no run does it ask
    the remote for its URL, make an Octokit client, authenticate, or ask for
    a pull request; the last thing a successful run of the draft does is to
    print [Pushed <branch>]. *)
Theorem draft_never_calls_the_hosting_api
  {W : Type} (lib : collaborator W) (node : Runtime) (env : Environment)
  (inputPath packageName beforeVersion afterVersion : string) (w : W)
  (r : run value W) :
  r = exec lib (Draft.bump node env inputPath packageName beforeVersion afterVersion) w ->
  never is_hosting (trace r) = true
  /\ requested (trace r) = []
  /\ (forall returned : value,
        result r = Returned returned ->
        printed (trace r) = ["Pushed " ++ branchName packageName afterVersion]
        /\ option_map called (final_event (trace r))
           = Some (console_log ("Pushed " ++ branchName packageName afterVersion))).
Proof.
  intros Hr; unfold_script Hr;
    follow lib Hr
      ltac:(finished Hr; observe; observe_more;
            split; [reflexivity|]; split; [reflexivity|];
            intros returned Hresult;
            first [discriminate | split; reflexivity]).
Qed.

Lemma draft_never_calls_the_hosting_api_witness :
  never is_hosting (trace Example.end_to_end_draft) = true
  /\ printed (trace Example.end_to_end_draft) = ["Pushed bump-left-pad-v1.2.0"].
Proof.
  unfold Example.end_to_end_draft.
  destruct (draft_never_calls_the_hosting_api
              Memory.lib Example.node Memory.credentials
              "/repo" "left-pad" "1.0.0" "^1.2.0" (Memory.clean Memory.manifest) _ eq_refl)
    as (Hnever & _ & Hprinted).
  split; [exact Hnever|].
  destruct (Hprinted VUndefined ltac:(vm_compute; reflexivity)) as (Hline & _).
  rewrite Hline. reflexivity.
Defined.

(* ===================================================================== *)
(** * The manifest on disk *)

(** X14.  When what [package.json] holds is not JSON, the run (of the script
    or of its draft) throws the [SyntaxError] of [JSON.parse], and reading
    the file was the last thing it did: no branch was created, no file
    written, nothing committed or pushed, no pull request asked for. *)
Theorem unparsable_manifest_aborts_before_branch
  {W : Type} (lib : collaborator W) (node : Runtime) (env : Environment)
  (inputPath packageName beforeVersion afterVersion : string) (w : W)
  (r : run value W) :
  r = exec lib (bump node env inputPath packageName beforeVersion afterVersion) w
  \/ r = exec lib (Draft.bump node env inputPath packageName beforeVersion afterVersion) w ->
  forall text : string,
    manifest_read (trace r) = Some text ->
    JSON_parse node text = None ->
    result r = Thrown SyntaxError
    /\ final_event (trace r)
       = Some (Event (Fs_readFileSync (Path_resolve node inputPath "package.json") "utf8")
                     (inr text))
    /\ never is_create_branch (trace r) = true
    /\ never is_file_write (trace r) = true
    /\ never is_commit (trace r) = true
    /\ never is_push (trace r) = true
    /\ never is_pull_request (trace r) = true.
Proof.
  intros Hr; destruct Hr as [Hr|Hr]; unfold_script Hr;
    follow lib Hr
      ltac:(finished Hr; observe;
            intros text Hread Hparse;
            try discriminate; injection Hread as <-; agree;
            repeat split; reflexivity).
Qed.

Lemma unparsable_manifest_aborts_before_branch_witness :
  result (exec Memory.lib
            (bump Example.node Memory.credentials "/repo" "left-pad" "1.0.0" "^1.2.0")
            Scenario.garbled)
  = Thrown SyntaxError.
Proof.
  apply (unparsable_manifest_aborts_before_branch
           Memory.lib Example.node Memory.credentials
           "/repo" "left-pad" "1.0.0" "^1.2.0" Scenario.garbled _
           (or_introl eq_refl) "<<<<<<< HEAD");
    vm_compute; reflexivity.
Defined.

(** A run that returns has read the manifest, found the expected version in
    it, and written the manifest with the entry set. *)
Lemma returned_run_wrote
  {W : Type} (lib : collaborator W) (node : Runtime) (env : Environment)
  (inputPath packageName beforeVersion afterVersion : string) (w : W)
  (r : run value W) :
  r = exec lib (bump node env inputPath packageName beforeVersion afterVersion) w
  \/ r = exec lib (Draft.bump node env inputPath packageName beforeVersion afterVersion) w ->
  forall returned : value,
    result r = Returned returned ->
    exists (text : string) (pkg : json) (recorded : value) (pkg' : json),
      manifest_read (trace r) = Some text
      /\ JSON_parse node text = Some pkg
      /\ dependencies_get node pkg packageName = Some recorded
      /\ strict_equals_string recorded beforeVersion = true
      /\ dependencies_set node pkg packageName afterVersion = Some pkg'
      /\ writes (trace r)
         = [(Path_resolve node inputPath "package.json",
             JSON.stringify pkg' 2 ++ JSON.newline)].
Proof.
  intros Hr; destruct Hr as [Hr|Hr]; unfold_script Hr;
    follow lib Hr
      ltac:(finished Hr; observe;
            intros returned Hresult;
            first [ discriminate Hresult
                  | do 4 eexists;
                    repeat split; first [eassumption | reflexivity] ]).
Qed.

(** X15.  A bump is refused the second time.  Take a run (of the script or of
    its draft) that returned, on a manifest whose [dependencies] is an
    object, and any later run for the same package and the same two versions
    that reads back what the first one wrote (and whose [JSON.parse] undoes
    the [JSON.stringify] of the first).  If the two versions differ, the
    later run throws [<afterVersion> must equal <beforeVersion>] right after
    reading the manifest: it creates no second branch, writes no file, and
    commits, pushes and requests nothing. *)
Theorem a_bump_is_refused_the_second_time
  {W W' : Type} (lib : collaborator W) (lib' : collaborator W')
  (node : Runtime) (env env' : Environment)
  (inputPath inputPath' packageName beforeVersion afterVersion : string)
  (w : W) (w' : W') (r : run value W) (r' : run value W') :
  r = exec lib (bump node env inputPath packageName beforeVersion afterVersion) w
  \/ r = exec lib (Draft.bump node env inputPath packageName beforeVersion afterVersion) w ->
  r' = exec lib' (bump node env' inputPath' packageName beforeVersion afterVersion) w'
  \/ r' = exec lib' (Draft.bump node env' inputPath' packageName beforeVersion afterVersion) w' ->
  forall (returned : value) (text : string) (fields dependencies : list (string * json))
         (written : json),
    result r = Returned returned ->
    manifest_read (trace r) = Some text ->
    JSON_parse node text = Some (JObj fields) ->
    JsObject.own "dependencies" fields = Some (JObj dependencies) ->
    written = JObj (JsObject.overwrite "dependencies"
                      (JObj (JsObject.overwrite packageName (JStr afterVersion)
                               dependencies))
                      fields) ->
    beforeVersion <> afterVersion ->
    List.map snd (writes (trace r)) = [JSON.stringify written 2 ++ JSON.newline]
    /\ (manifest_read (trace r') = Some (JSON.stringify written 2 ++ JSON.newline) ->
        JSON_parse node (JSON.stringify written 2 ++ JSON.newline) = Some written ->
        result r' = Thrown (AssertionError (afterVersion ++ " must equal " ++ beforeVersion))
        /\ never is_create_branch (trace r') = true
        /\ never is_file_write (trace r') = true
        /\ never is_commit (trace r') = true
        /\ never is_push (trace r') = true
        /\ never is_pull_request (trace r') = true).
Proof.
  intros Hr Hr' returned text fields dependencies written
         Hresult Hread Hparse Hdeps -> Hdiffer.
  destruct (returned_run_wrote lib node env inputPath packageName beforeVersion
              afterVersion w r Hr returned Hresult)
    as (text' & pkg & recorded & pkg' & Hread' & Hparse' & Hget & Hexpected & Hset & Hwrites).
  rewrite Hread in Hread'. injection Hread' as <-.
  rewrite Hparse in Hparse'. injection Hparse' as <-.
  destruct (dependencies_set_frame node fields dependencies packageName beforeVersion
              afterVersion recorded pkg' Hdeps Hget Hexpected Hset)
    as (Hown & _).
  unfold dependencies_set in Hset. rewrite Hdeps in Hset.
  rewrite (set_existing _ (JStr afterVersion) _ _ Hown) in Hset.
  injection Hset as <-.
  split; [rewrite Hwrites; reflexivity|].
  intros Hread' Hparse'.
  assert (Hget' : dependencies_get node
                    (JObj (JsObject.overwrite "dependencies"
                             (JObj (JsObject.overwrite packageName (JStr afterVersion)
                                      dependencies))
                             fields)) packageName
                  = Some (VJson (JStr afterVersion))).
  { unfold dependencies_get.
    rewrite (own_overwrite_same _ _ _ _ Hdeps).
    unfold JsObject.get. rewrite (own_overwrite_same _ _ _ _ Hown). reflexivity. }
  assert (Hno : forall recorded',
             dependencies_get node
               (JObj (JsObject.overwrite "dependencies"
                        (JObj (JsObject.overwrite packageName (JStr afterVersion)
                                 dependencies))
                        fields)) packageName
             = Some recorded' ->
             strict_equals_string recorded' beforeVersion = false).
  { intros recorded' H. rewrite Hget' in H. injection H as <-.
    simpl. apply String.eqb_neq. intros H. apply Hdiffer. symmetry. exact H. }
  destruct (version_check_outcome lib' node env' inputPath' packageName beforeVersion
              afterVersion w' r' Hr' _ _ Hread' Hparse' Hno)
    as (Hthrown & _ & Hnever).
  rewrite Hget' in Hthrown.
  split; [exact Hthrown | exact Hnever].
Qed.

Lemma a_bump_is_refused_the_second_time_witness :
  result (exec Memory.lib
            (bump Scenario.node Memory.credentials "/repo" "left-pad" "1.0.0" "^1.2.0")
            Scenario.bumped)
  = Thrown (AssertionError "^1.2.0 must equal 1.0.0").
Proof.
  destruct (a_bump_is_refused_the_second_time
              Memory.lib Memory.lib Scenario.node Memory.credentials Memory.credentials
              "/repo" "/repo" "left-pad" "1.0.0" "^1.2.0"
              (Memory.clean Memory.manifest) Scenario.bumped _ _
              (or_introl eq_refl) (or_introl eq_refl)
              VUndefined
              (JSON.stringify Memory.manifest 2 ++ JSON.newline)
              [("name", JStr "app");
               ("version", JStr "0.1.0");
               ("dependencies", JObj [("left-pad", JStr "1.0.0"); ("hoek", JStr "5.0.3")]);
               ("devDependencies", JObj [("lab", JStr "15.0.0")])]
              [("left-pad", JStr "1.0.0"); ("hoek", JStr "5.0.3")]
              Scenario.bumped_manifest
              ltac:(vm_compute; reflexivity) ltac:(vm_compute; reflexivity)
              ltac:(vm_compute; reflexivity) ltac:(vm_compute; reflexivity)
              ltac:(vm_compute; reflexivity) ltac:(discriminate))
    as (_ & Hsecond).
  destruct Hsecond as (Hthrown & _);
    [ vm_compute; reflexivity | vm_compute; reflexivity | ].
  rewrite Hthrown. reflexivity.
Defined.

(** X16.  Whatever the libraries answer, a run (of the script or of its
    draft) that got as far as writing the manifest had created the new
    branch and checked it out after [master]: the manifest is never written
    while [master] is checked out.  And nothing is staged, and no commit
    asked for, unless the manifest was written without an error. *)
Theorem the_manifest_is_written_on_the_new_branch
  {W : Type} (lib : collaborator W) (node : Runtime) (env : Environment)
  (inputPath packageName beforeVersion afterVersion : string) (w : W)
  (r : run value W) :
  r = exec lib (bump node env inputPath packageName beforeVersion afterVersion) w
  \/ r = exec lib (Draft.bump node env inputPath packageName beforeVersion afterVersion) w ->
  (writes (trace r) <> [] ->
   branches_created (trace r) = [branchName packageName afterVersion]
   /\ checked_out (trace r) = ["master"; branchName packageName afterVersion])
  /\ (staging (trace r) <> [] \/ commit_requests (trace r) <> [] ->
      did is_file_write (trace r) = true).
Proof.
  intros Hr; destruct Hr as [Hr|Hr]; unfold_script Hr;
    follow lib Hr
      ltac:(finished Hr; observe; observe_more;
            split;
            [ intros Hwritten;
              first [ exfalso; apply Hwritten; reflexivity
                    | split; reflexivity ]
            | intros Hstaged;
              first [ reflexivity
                    | exfalso; destruct Hstaged as [H|H]; apply H; reflexivity ] ]).
Qed.

Lemma the_manifest_is_written_on_the_new_branch_witness :
  checked_out (trace Example.rejected) = ["master"; "bump-left-pad-v1.2.0"].
Proof.
  unfold Example.rejected.
  destruct (the_manifest_is_written_on_the_new_branch
              Memory.lib Example.node Memory.credentials
              "/repo" "left-pad" "1.0.0" "^1.2.0" (Memory.rejecting Memory.manifest) _
              (or_introl eq_refl)) as (Hwritten & _).
  destruct Hwritten as (_ & Hchecked); [vm_compute; discriminate|].
  rewrite Hchecked. reflexivity.
Defined.


